(** * The action performer lambda of the hasher-matcher-actioner

    A shallow embedding of [hmalib/lambdas/actions/action_performer.py]:
    the once-only initialisation [lambda_init_once], the dispatch
    [perform_label_action] and the intake loop [lambda_handler].

    Python objects are records, the process state (environment, caches,
    configuration, the outside world the handlers act on, the records
    table, the clock and the log) is an explicit [World] threaded through
    a state-and-exception monad, and the parts of [hmalib] the file imports
    but does not define are the fields of the class [HmaLib]. *)

From Stdlib Require Import ZArith Ascii String.
From stdpp Require Import base option list strings gmap.

Local Open Scope string_scope.
Local Open Scope list_scope.

(** ** Data model *)

(** [hmalib.common.message_models.BankedSignal]: built positionally in
    the source as [BankedSignal("2862392437204724", "bank 4", "te")]. *)
Module BankedSignal.
Record t : Type := new {
  signal_id : string;
  bank_id : string;
  bank_name : string;
}.
End BankedSignal.

(** [hmalib.common.message_models.MatchMessage]: built in the source as
    [MatchMessage("key", "hash", banked_signals)]. *)
Module MatchMessage.
Record t : Type := new {
  content_key : string;
  matched_hash : string;
  matching_banked_signals : list BankedSignal.t;
}.
End MatchMessage.

(** [hmalib.common.evaluator_models.ActionLabel]: the source reads its
    [value], the key handed to [ActionPerformer.get]. *)
Module ActionLabel.
Record t : Type := new { value : string }.
End ActionLabel.

(** [hmalib.common.message_models.ActionMessage]: a [MatchMessage] (it is
    passed where one is expected, and built with the same two leading
    positional arguments) that also carries the label and the rules. The
    type of rules is the parameter [Rule]. *)
Module ActionMessage.
Record t (Rule : Type) : Type := new {
  content_key : string;
  matched_hash : string;
  matching_banked_signals : list BankedSignal.t;
  action_label : ActionLabel.t;
  action_rules : list Rule;
}.
Arguments new {Rule} _ _ _ _ _.
Arguments content_key {Rule} _.
Arguments matched_hash {Rule} _.
Arguments matching_banked_signals {Rule} _.
Arguments action_label {Rule} _.
Arguments action_rules {Rule} _.

(** The three attributes an action message shares with a match message,
    as a match message of their own. The source never builds this object
    from an action message; the definition is there to compare with. *)
Definition match_view {Rule : Type} (m : t Rule) : MatchMessage.t :=
  MatchMessage.new (content_key m) (matched_hash m) (matching_banked_signals m).
End ActionMessage.

(** [hmalib.common.content_models.ActionEvent], with the keyword
    arguments of the constructor call in [lambda_handler]. [performed_at]
    is a reading of the clock. *)
Module ActionEvent.
Record t : Type := new {
  content_id : string;
  performed_at : Z;
  action_label : string;
  action_rules : list string;
}.
End ActionEvent.

(** A value of static type [MatchMessage]: an instance of the class or of
    its subclass [ActionMessage]. Passing an object passes the object, so
    a callee that is handed an action message can read its label and its
    rules. *)
Inductive message (Rule : Type) : Type :=
  | MatchMessageObj (m : MatchMessage.t)
  | ActionMessageObj (m : ActionMessage.t Rule).
Arguments MatchMessageObj {Rule} _.
Arguments ActionMessageObj {Rule} _.

Definition message_content_key {Rule : Type} (o : message Rule) : string :=
  match o with
  | MatchMessageObj m => MatchMessage.content_key m
  | ActionMessageObj m => ActionMessage.content_key m
  end.

Definition message_matched_hash {Rule : Type} (o : message Rule) : string :=
  match o with
  | MatchMessageObj m => MatchMessage.matched_hash m
  | ActionMessageObj m => ActionMessage.matched_hash m
  end.

Definition message_matching_banked_signals {Rule : Type} (o : message Rule)
  : list BankedSignal.t :=
  match o with
  | MatchMessageObj m => MatchMessage.matching_banked_signals m
  | ActionMessageObj m => ActionMessage.matching_banked_signals m
  end.

(** [getattr(o, "action_label", None)] and [getattr(o, "action_rules", None)]. *)
Definition message_action_label {Rule : Type} (o : message Rule) : option ActionLabel.t :=
  match o with
  | MatchMessageObj _ => None
  | ActionMessageObj m => Some (ActionMessage.action_label m)
  end.

Definition message_action_rules {Rule : Type} (o : message Rule) : option (list Rule) :=
  match o with
  | MatchMessageObj _ => None
  | ActionMessageObj m => Some (ActionMessage.action_rules m)
  end.

(** ** Exceptions and outcomes *)

(** What a call can raise: [KeyError] from a subscript on a missing key
    ([os.environ[...]], [event["Records"]], [sqs_record["body"]]), and the
    error kinds of the collaborators. *)
Inductive exn : Type :=
  | KeyError (key : string)
  | DeserializationError (body : string)
  | HandlerExecutionError (detail : string)
  | StorageWriteError (detail : string)
  | ConfigError (detail : string).

Inductive outcome (A : Type) : Type :=
  | Return (a : A)
  | Raise (e : exn).
Arguments Return {A} _.
Arguments Raise {A} _.

(** ** The wire format of an action message *)

(** [ActionMessage.to_aws_json] and [ActionMessage.from_aws_json] belong
    to [hmalib.common.message_models], which is not among the sources at
    hand. The intake loop below takes [from_aws_json] as a collaborator;
    this module gives the pair a concrete model to state the round trip
    against. *)
Module Wire.

Definition dquote : ascii := "034"%char.
Definition backslash : ascii := "092"%char.

Definition parser (A : Type) : Type := string -> option (A * string).

(** Printers write in front of the text that follows, so that a parser
    can be run on [emit x rest] and hand back [rest]. *)

(** Modelled from the spec: the text of a string field of the wire format
    (the file defining it is missing): the characters between double
    quotes, a double quote or a backslash preceded by a backslash. *)
Fixpoint emit_escaped (s : string) (rest : string) : string :=
  match s with
  | EmptyString => rest
  | String c s' =>
      if (Ascii.eqb c dquote || Ascii.eqb c backslash)%bool
      then String backslash (String c (emit_escaped s' rest))
      else String c (emit_escaped s' rest)
  end.

Definition emit_string (s : string) (rest : string) : string :=
  String dquote (emit_escaped s (String dquote rest)).

(** Reads up to the closing double quote, undoing the escapes. *)
Fixpoint read_escaped (s : string) : option (string * string) :=
  match s with
  | EmptyString => None
  | String c s' =>
      if Ascii.eqb c dquote then Some (EmptyString, s')
      else if Ascii.eqb c backslash then
        match s' with
        | EmptyString => None
        | String d s'' =>
            if (Ascii.eqb d dquote || Ascii.eqb d backslash)%bool
            then match read_escaped s'' with
                 | Some (r, rest) => Some (String d r, rest)
                 | None => None
                 end
            else None
        end
      else match read_escaped s' with
           | Some (r, rest) => Some (String c r, rest)
           | None => None
           end
  end.

Definition p_string : parser string :=
  fun s =>
    match s with
    | String c s' => if Ascii.eqb c dquote then read_escaped s' else None
    | EmptyString => None
    end.

(** [expect lit s] strips the literal [lit] from the front of [s]. *)
Fixpoint expect (lit : string) (s : string) : option string :=
  match lit with
  | EmptyString => Some s
  | String c lit' =>
      match s with
      | String d s' => if Ascii.eqb c d then expect lit' s' else None
      | EmptyString => None
      end
  end.

(** A field of an object: its name as a string, a colon, its value. *)
Definition emit_key (name : string) (rest : string) : string :=
  emit_string name (":" +:+ rest).

Definition p_key (name : string) (s : string) : option string :=
  expect (emit_key name "") s.

(** Arrays: the elements between brackets, separated by commas. *)
Fixpoint emit_elements {A : Type} (emit : A -> string -> string)
    (l : list A) (rest : string) : string :=
  match l with
  | [] => "]" +:+ rest
  | [a] => emit a ("]" +:+ rest)
  | a :: l' => emit a ("," +:+ emit_elements emit l' rest)
  end.

Definition emit_array {A : Type} (emit : A -> string -> string)
    (l : list A) (rest : string) : string :=
  "[" +:+ emit_elements emit l rest.

Fixpoint p_elements {A : Type} (p : parser A) (fuel : nat) (s : string)
  : option (list A * string) :=
  match fuel with
  | O => None
  | S fuel' =>
      match p s with
      | None => None
      | Some (a, String c rest) =>
          if Ascii.eqb c "," then
            match p_elements p fuel' rest with
            | Some (l, rest') => Some (a :: l, rest')
            | None => None
            end
          else if Ascii.eqb c "]" then Some ([a], rest)
          else None
      | Some (_, EmptyString) => None
      end
  end.

(** The fuel is the length of the text: every element takes at least the
    comma or the bracket that ends it. *)
Definition p_array {A : Type} (p : parser A) : parser (list A) :=
  fun s =>
    match s with
    | String c s' =>
        if Ascii.eqb c "[" then
          match s' with
          | String d s'' =>
              if Ascii.eqb d "]" then Some ([], s'')
              else p_elements p (String.length s') s'
          | EmptyString => None
          end
        else None
    | EmptyString => None
    end.

(** What the array parser needs of an element's printer: the text starts
    with a character other than the closing bracket and is no shorter
    than what follows it. *)
Definition starts_element {A : Type} (emit : A -> string -> string) : Prop :=
  forall a rest, exists c s,
    emit a rest = String c s /\ Ascii.eqb c "]" = false /\
    String.length rest <= String.length s.

(** Modelled from the spec: one matched signal on the wire (the file
    defining it is missing), an object of [signal_id], [bank_id] and
    [bank_name]. *)
Definition emit_signal (b : BankedSignal.t) (rest : string) : string :=
  "{" +:+ emit_key "signal_id" (emit_string (BankedSignal.signal_id b)
  ("," +:+ emit_key "bank_id" (emit_string (BankedSignal.bank_id b)
  ("," +:+ emit_key "bank_name" (emit_string (BankedSignal.bank_name b)
  ("}" +:+ rest)))))).

Definition p_signal : parser BankedSignal.t :=
  fun s =>
    s ← expect "{" s; s ← p_key "signal_id" s;
    '(sid, s) ← p_string s;
    s ← expect "," s; s ← p_key "bank_id" s;
    '(bid, s) ← p_string s;
    s ← expect "," s; s ← p_key "bank_name" s;
    '(bname, s) ← p_string s;
    s ← expect "}" s;
    Some (BankedSignal.new sid bid bname, s).

Section Rules.
(** A rule is opaque here: what is known of it is that it serializes on
    its own to a blob and is read back from one. *)
Variable Rule : Type.
Variable rule_to_aws_json : Rule -> string.
Variable rule_from_aws_json : string -> option Rule.

Definition emit_rule (r : Rule) (rest : string) : string :=
  emit_string (rule_to_aws_json r) rest.

Definition p_rule : parser Rule :=
  fun s =>
    '(blob, s) ← p_string s;
    r ← rule_from_aws_json blob;
    Some (r, s).

(** Modelled from the spec: [ActionMessage.to_aws_json] (the file
    defining it is missing). The message is an object of [content_key],
    [matched_hash], [matching_banked_signals] (an array of signals),
    [action_label] (the label's value) and [action_rules] (an array of
    rule blobs, one per rule). *)
Definition to_aws_json (m : ActionMessage.t Rule) : string :=
  "{" +:+ emit_key "content_key" (emit_string (ActionMessage.content_key m)
  ("," +:+ emit_key "matched_hash" (emit_string (ActionMessage.matched_hash m)
  ("," +:+ emit_key "matching_banked_signals"
             (emit_array emit_signal (ActionMessage.matching_banked_signals m)
  ("," +:+ emit_key "action_label"
             (emit_string (ActionLabel.value (ActionMessage.action_label m))
  ("," +:+ emit_key "action_rules"
             (emit_array emit_rule (ActionMessage.action_rules m)
  "}"))))))))).

(** Modelled from the spec: [ActionMessage.from_aws_json] (the file
    defining it is missing). [None] stands for a body that does not parse
    into an action message; nothing may follow the closing brace. *)
Definition from_aws_json (body : string) : option (ActionMessage.t Rule) :=
  s ← expect "{" body; s ← p_key "content_key" s;
  '(key, s) ← p_string s;
  s ← expect "," s; s ← p_key "matched_hash" s;
  '(hash, s) ← p_string s;
  s ← expect "," s; s ← p_key "matching_banked_signals" s;
  '(signals, s) ← p_array p_signal s;
  s ← expect "," s; s ← p_key "action_label" s;
  '(label, s) ← p_string s;
  s ← expect "," s; s ← p_key "action_rules" s;
  '(rules, s) ← p_array p_rule s;
  s ← expect "}" s;
  match s with
  | EmptyString => Some (ActionMessage.new key hash signals (ActionLabel.new label) rules)
  | String _ _ => None
  end.
End Rules.

End Wire.

(** ** What the lambda imports *)

(** The names [action_performer.py] imports from [hmalib] and from the
    standard library and calls, none of which it defines. Each is a field:
    the rule type and its serializer, the deserializer of action
    messages, the configuration module, the registry of action performers
    with their one method, the store's verdict on a write and the clock.

    A performer acts on the outside world ([External]: the endpoint a
    webhook is posted to, a review queue) and may raise; it has no access
    to the rest of the process state. *)
Class HmaLib : Type := {
  ActionRule : Type;
  (** [rule.to_aws_json()] *)
  ActionRule_to_aws_json : ActionRule -> string;
  (** [ActionMessage.from_aws_json(body)]: the message, or what it raises *)
  ActionMessage_from_aws_json : string -> outcome (ActionMessage.t ActionRule);
  (** the state of [hmalib.common.config] *)
  Config : Type;
  (** [config.HMAConfig.initialize(config_table)] *)
  HMAConfig_initialize : string -> Config -> outcome unit * Config;
  External : Type;
  ActionPerformer : Type;
  (** Modelled from the spec: [ActionPerformer.get(name)] (the file
      defining it is missing) is a pure lookup in the registry the
      configuration describes; absence is a result, not an error. *)
  ActionPerformer_get : Config -> string -> option ActionPerformer;
  (** [action_performer.perform_action(match_message)] *)
  ActionPerformer_perform_action :
    ActionPerformer -> message ActionRule -> External -> outcome unit * External;
  (** whether the store takes a row, given the table's name and rows *)
  put_item_accepts : string -> list ActionEvent.t -> ActionEvent.t -> bool;
  (** the time the n-th reading of [datetime.datetime.now()] gives *)
  wall_clock : nat -> Z;
}.

(** ** The process state and its monad *)

Section Lambda.
Context `{HmaLib}.

(** [DYNAMODB_TABLE = os.environ["DYNAMODB_TABLE"]], read when the module
    is loaded. *)
Variable DYNAMODB_TABLE : string.

Record World : Type := mkWorld {
  (** [os.environ] *)
  environ : gmap string string;
  (** the one slot of [lru_cache(maxsize=1)] on [lambda_init_once]:
      [Some tt] once a call has returned *)
  init_cache : option unit;
  hma_config : Config;
  (** calls made to [HMAConfig.initialize] so far *)
  initialize_calls : nat;
  external : External;
  (** calls made to [perform_action] so far, oldest first: the performer
      and the object it was handed *)
  performed : list (ActionPerformer * message ActionRule);
  (** the tables of [boto3.resource("dynamodb")], by name *)
  dynamodb : gmap string (list ActionEvent.t);
  (** readings of the clock taken so far *)
  clock_reads : nat;
  (** what [logger.info] was handed so far, oldest first *)
  logged : list (ActionMessage.t ActionRule);
}.

Definition set_init_cache (c : option unit) (w : World) : World :=
  mkWorld (environ w) c (hma_config w) (initialize_calls w) (external w)
          (performed w) (dynamodb w) (clock_reads w) (logged w).

(** The state after a call of [HMAConfig.initialize] that left the
    configuration [c]: one more call is counted. *)
Definition after_initialize (c : Config) (w : World) : World :=
  mkWorld (environ w) (init_cache w) c (S (initialize_calls w)) (external w)
          (performed w) (dynamodb w) (clock_reads w) (logged w).

(** The state after calls of [perform_action] that left the outside
    world [x] and the note of calls [p]. *)
Definition after_perform (x : External)
    (p : list (ActionPerformer * message ActionRule)) (w : World) : World :=
  mkWorld (environ w) (init_cache w) (hma_config w) (initialize_calls w) x
          p (dynamodb w) (clock_reads w) (logged w).

Definition set_dynamodb (d : gmap string (list ActionEvent.t)) (w : World) : World :=
  mkWorld (environ w) (init_cache w) (hma_config w) (initialize_calls w) (external w)
          (performed w) d (clock_reads w) (logged w).

Definition set_clock_reads (n : nat) (w : World) : World :=
  mkWorld (environ w) (init_cache w) (hma_config w) (initialize_calls w) (external w)
          (performed w) (dynamodb w) n (logged w).

Definition set_logged (l : list (ActionMessage.t ActionRule)) (w : World) : World :=
  mkWorld (environ w) (init_cache w) (hma_config w) (initialize_calls w) (external w)
          (performed w) (dynamodb w) (clock_reads w) l.

(** A computation runs on a world and ends with a value or an exception;
    what it did before raising stays done. *)
Definition py (A : Type) : Type := World -> outcome A * World.

Definition ret {A : Type} (a : A) : py A := fun w => (Return a, w).

Definition raise {A : Type} (e : exn) : py A := fun w => (Raise e, w).

Definition bind {A B : Type} (c : py A) (k : A -> py B) : py B :=
  fun w =>
    match c w with
    | (Return a, w') => k a w'
    | (Raise e, w') => (Raise e, w')
    end.

Notation "x <- c ;; k" := (bind c (fun x => k))
  (at level 100, c at next level, right associativity).
Notation "c ;; k" := (bind c (fun _ => k))
  (at level 100, right associativity).

(** [for a in l: body(a)] *)
Fixpoint for_each {A : Type} (body : A -> py unit) (l : list A) : py unit :=
  match l with
  | [] => ret tt
  | a :: l' => body a ;; for_each body l'
  end.

(** [d[key]] on a dict *)
Definition subscript {V : Type} (d : gmap string V) (key : string) : py V :=
  match d !! key with
  | Some v => ret v
  | None => raise (KeyError key)
  end.

(** [os.environ[key]] *)
Definition os_environ (key : string) : py string :=
  fun w => subscript (environ w) key w.

(** [config.HMAConfig.initialize(config_table)] *)
Definition HMAConfig_initialize_call (config_table : string) : py unit :=
  fun w =>
    let '(o, c) := HMAConfig_initialize config_table (hma_config w) in
    (o, after_initialize c w).

(** [datetime.datetime.now()] *)
Definition datetime_now : py Z :=
  fun w => (Return (wall_clock (clock_reads w)), set_clock_reads (S (clock_reads w)) w).

(** [logger.info("Performing action: action_message = %s", action_message)] *)
Definition logger_info (action_message : ActionMessage.t ActionRule) : py unit :=
  fun w => (Return tt, set_logged (logged w ++ [action_message]) w).

(** [ActionMessage.from_aws_json(body)] *)
Definition ActionMessage_from_aws_json_call (body : string)
  : py (ActionMessage.t ActionRule) :=
  fun w => (ActionMessage_from_aws_json body, w).

(** [ActionPerformer.get(name)] *)
Definition ActionPerformer_get_call (name : string) : py (option ActionPerformer) :=
  fun w => (Return (ActionPerformer_get (hma_config w) name), w).

(** [action_performer.perform_action(match_message)]: the call is noted,
    then the performer runs on the outside world. *)
Definition perform_action (action_performer : ActionPerformer)
    (match_message : message ActionRule) : py unit :=
  fun w =>
    let '(o, x) := ActionPerformer_perform_action action_performer match_message (external w) in
    (o, after_perform x (performed w ++ [(action_performer, match_message)]) w).

Definition table_rows (table : string) (w : World) : list ActionEvent.t :=
  default [] (dynamodb w !! table).

(** Modelled from the spec: [ActionEvent.write_to_table(table)] (the file
    defining it is missing) appends one row to the table, or surfaces a
    storage error when the store refuses the write; it does not retry. *)
Definition ActionEvent_write_to_table (ev : ActionEvent.t) (table : string) : py unit :=
  fun w =>
    if put_item_accepts table (table_rows table w) ev
    then (Return tt, set_dynamodb (<[table := table_rows table w ++ [ev]]> (dynamodb w)) w)
    else (Raise (StorageWriteError table), w).

(** ** The lambda *)

(** The body under the decorator: [os.environ["CONFIG_TABLE_NAME"]], then
    [config.HMAConfig.initialize]. *)
Definition lambda_init_once_body : py unit :=
  config_table <- os_environ "CONFIG_TABLE_NAME" ;;
  HMAConfig_initialize_call config_table.

(** [@lru_cache(maxsize=1)] on a function of no argument: a call that
    finds the slot filled returns what is in it and runs nothing; a call
    that returns fills the slot; a call that raises leaves it empty. *)
Definition lambda_init_once : py unit :=
  fun w =>
    match init_cache w with
    | Some r => (Return r, w)
    | None =>
        match lambda_init_once_body w with
        | (Return r, w') => (Return r, set_init_cache (Some r) w')
        | (Raise e, w') => (Raise e, w')
        end
    end.

(** [if action_performer := ActionPerformer.get(action_label.value):]
    takes its branch when the lookup gives a performer (an object, which
    is truthy) and falls through to [return False] when it gives [None].
    The performer is handed [match_message], the object the caller passed
    in. *)
Definition perform_label_action (match_message : message ActionRule)
    (action_label : ActionLabel.t) : py bool :=
  found <- ActionPerformer_get_call (ActionLabel.value action_label) ;;
  match found with
  | Some action_performer =>
      perform_action action_performer match_message ;;
      ret true
  | None => ret false
  end.

(** The [ActionEvent(...)] built in the loop, given the reading of the
    clock: one blob per rule, in the order of the rules. *)
Definition action_event_of (action_message : ActionMessage.t ActionRule) (now : Z)
  : ActionEvent.t :=
  ActionEvent.new
    (ActionMessage.content_key action_message)
    now
    (ActionLabel.value (ActionMessage.action_label action_message))
    (map ActionRule_to_aws_json (ActionMessage.action_rules action_message)).

(** One turn of the loop of [lambda_handler], on one SQS record. *)
Definition process_record (records_table : string) (sqs_record : gmap string string)
  : py unit :=
  body <- subscript sqs_record "body" ;;
  action_message <- ActionMessage_from_aws_json_call body ;;
  logger_info action_message ;;
  perform_label_action (ActionMessageObj action_message)
                       (ActionMessage.action_label action_message) ;;
  now <- datetime_now ;;
  ActionEvent_write_to_table (action_event_of action_message now) records_table.

Definition lambda_handler (event : gmap string (list (gmap string string)))
    (context : unit) : py (gmap string string) :=
  let records_table := DYNAMODB_TABLE in
  lambda_init_once ;;
  records <- subscript event "Records" ;;
  for_each (process_record records_table) records ;;
  ret {[ "action_performed" := "true" ]}.

End Lambda.

Arguments World {_}.
Arguments py {_} _.

(** [n] calls of the same computation in a row, stopping at a raise. *)
Fixpoint times `{HmaLib} (n : nat) (c : py unit) : py unit :=
  match n with
  | O => ret tt
  | S n' => bind c (fun _ => times n' c)
  end.

(** [row_of_record r row]: [row] is the audit row of the record [r], the
    [ActionEvent] built from the message its body deserializes to, at some
    reading of the clock. *)
Definition row_of_record `{HmaLib} (r : gmap string string) (row : ActionEvent.t) : Prop :=
  exists body m now,
    r !! "body" = Some body /\
    ActionMessage_from_aws_json body = Return m /\
    row = action_event_of m now.

(** [deserializes_to r m]: the record [r] has a body, and the body
    deserializes to the message [m]. *)
Definition deserializes_to `{HmaLib} (r : gmap string string)
    (m : ActionMessage.t ActionRule) : Prop :=
  exists body, r !! "body" = Some body /\ ActionMessage_from_aws_json body = Return m.

(** The calls of [perform_action] a dispatch of [m] makes under the
    configuration [config]: one, to the performer its label resolves to
    and with the message itself, or none. *)
Definition calls_for `{HmaLib} (config : Config) (m : ActionMessage.t ActionRule)
  : list (ActionPerformer * message ActionRule) :=
  match ActionPerformer_get config (ActionLabel.value (ActionMessage.action_label m)) with
  | Some p => [(p, ActionMessageObj m)]
  | None => []
  end.

(** What the dispatch of [m] does to the outside world [x] under the
    configuration [config]: the run of the performer, or nothing. *)
Definition dispatch_run `{HmaLib} (config : Config) (m : ActionMessage.t ActionRule)
    (x : External) : outcome unit * External :=
  match ActionPerformer_get config (ActionLabel.value (ActionMessage.action_label m)) with
  | Some p => ActionPerformer_perform_action p (ActionMessageObj m) x
  | None => (Return tt, x)
  end.

(** ** A deployment to run the lambda on *)

(** One instance of the collaborators, for running the definitions on
    concrete batches: rules named by a string, the wire format of [Wire],
    three performers and a store that refuses a row with an empty
    [content_id]. *)
Module Demo.

Inductive performer : Type :=
  | EnqueueForReview   (** queues the content for review *)
  | Webhook            (** posts what it was handed to an endpoint *)
  | Broken.            (** its endpoint is unreachable: it raises *)

Definition rule_to_aws_json (r : string) : string := "rule:" +:+ r.

Definition rule_from_aws_json (blob : string) : option string :=
  Wire.expect "rule:" blob.

Definition to_aws_json (m : ActionMessage.t string) : string :=
  Wire.to_aws_json string rule_to_aws_json m.

Definition from_aws_json (body : string) : outcome (ActionMessage.t string) :=
  match Wire.from_aws_json string rule_from_aws_json body with
  | Some m => Return m
  | None => Raise (DeserializationError body)
  end.

(** The configuration is the name of the table it was initialised with;
    nothing resolves before that. *)
Definition get (config : option string) (name : string) : option performer :=
  match config with
  | None => None
  | Some _ =>
      if String.eqb name "EnqueForReview" then Some EnqueueForReview
      else if String.eqb name "Webhook" then Some Webhook
      else if String.eqb name "Broken" then Some Broken
      else None
  end.

(** The outside world is the list of requests sent so far. The webhook
    posts the label it finds on the object it was handed. *)
Definition perform_action (p : performer) (o : message string) (sent : list string)
  : outcome unit * list string :=
  match p with
  | EnqueueForReview => (Return tt, sent ++ ["review " +:+ message_content_key o])
  | Webhook =>
      (Return tt,
       sent ++ ["POST " +:+ message_content_key o +:+ " label=" +:+
                match message_action_label o with
                | Some l => ActionLabel.value l
                | None => "(none)"
                end])
  | Broken => (Raise (HandlerExecutionError "endpoint unreachable"), sent)
  end.

Definition lib : HmaLib := {|
  ActionRule := string;
  ActionRule_to_aws_json := rule_to_aws_json;
  ActionMessage_from_aws_json := from_aws_json;
  Config := option string;
  HMAConfig_initialize := fun config_table _ => (Return tt, Some config_table);
  External := list string;
  ActionPerformer := performer;
  ActionPerformer_get := get;
  ActionPerformer_perform_action := perform_action;
  put_item_accepts := fun _ _ ev => negb (String.eqb (ActionEvent.content_id ev) "");
  wall_clock := fun n => (1600000000 + Z.of_nat n)%Z;
|}.

Definition table : string := "hma-records".

(** A process that has just started, with its environment set. *)
Definition cold : @World lib :=
  @mkWorld lib {[ "CONFIG_TABLE_NAME" := "hma-config" ]} None None 0 [] [] ∅ 0 [].

(** A process that has just started in an environment that lacks
    [CONFIG_TABLE_NAME]. *)
Definition unconfigured : @World lib :=
  @mkWorld lib ∅ None None 0 [] [] ∅ 0 [].

(** The same process as [cold] once [lambda_init_once] has returned. *)
Definition warm : @World lib :=
  @mkWorld lib {[ "CONFIG_TABLE_NAME" := "hma-config" ]} (Some tt) (Some "hma-config") 1
            [] [] ∅ 0 [].

(** The two signals of the source's [__main__]. *)
Definition banked_signals : list BankedSignal.t :=
  [ BankedSignal.new "2862392437204724" "bank 4" "te";
    BankedSignal.new "4194946153908639" "bank 4" "te" ].

Definition message_for (key label : string) (rules : list string) : ActionMessage.t string :=
  ActionMessage.new key "hash" banked_signals (ActionLabel.new label) rules.

Definition review_message : ActionMessage.t string :=
  message_for "key" "EnqueForReview" ["r1"; "r2"].

Definition webhook_message : ActionMessage.t string :=
  message_for "key-w" "Webhook" ["r1"].

Definition unregistered_message : ActionMessage.t string :=
  message_for "key-u" "Unregistered" ["r3"].

Definition broken_message : ActionMessage.t string :=
  message_for "key-b" "Broken" ["r4"].

Definition third_message : ActionMessage.t string :=
  message_for "key-3" "EnqueForReview" [].

(** [{"body": action_message.to_aws_json()}] *)
Definition sqs_record_of (m : ActionMessage.t string) : gmap string string :=
  {[ "body" := to_aws_json m ]}.

(** [{"Records": records}] *)
Definition event_of (records : list (gmap string string))
  : gmap string (list (gmap string string)) :=
  {[ "Records" := records ]}.

Definition malformed_record : gmap string string := {[ "body" := "not an action message" ]}.

Definition success : gmap string string := {[ "action_performed" := "true" ]}.

(** The message of the source's [__main__]: no rules are given, so the
    list of rules is empty. *)
Definition main_message : ActionMessage.t string :=
  message_for "key" "EnqueForReview" [].

(** The source's [__main__]: [lambda_init_once()], then the handler on
    the event of that one message. *)
Definition main : @py lib (gmap string string) :=
  bind lambda_init_once
       (fun _ => lambda_handler table (event_of [sqs_record_of main_message]) tt).

(** A message whose key and second rule hold a double quote and a
    backslash, the characters the wire format escapes. *)
Definition awkward_message : ActionMessage.t string :=
  ActionMessage.new (String Wire.dquote (String Wire.backslash "key")) "hash"
    banked_signals (ActionLabel.new "EnqueForReview") ["r1"; String Wire.dquote "r2"].

(** The row written for [review_message] at the first reading of the clock. *)
Definition review_row : ActionEvent.t :=
  ActionEvent.new "key" 1600000000 "EnqueForReview" ["rule:r1"; "rule:r2"].

(** The process [warm] after one turn of the loop on [review_message]. *)
Definition reviewed : @World lib :=
  @mkWorld lib {[ "CONFIG_TABLE_NAME" := "hma-config" ]} (Some tt) (Some "hma-config") 1
            ["review key"] [(EnqueueForReview, ActionMessageObj review_message)]
            {[ table := [review_row] ]} 1 [review_message].

(** The process [cold] after a run of the handler on a batch of one
    message whose label resolves to no performer: initialised, nothing
    performed, one row written. *)
Definition gap_recorded : @World lib :=
  @mkWorld lib {[ "CONFIG_TABLE_NAME" := "hma-config" ]} (Some tt) (Some "hma-config") 1
            [] []
            {[ table := [ActionEvent.new "key-u" 1600000000 "Unregistered" ["rule:r3"]] ]}
            1 [unregistered_message].

(** A batch of three: a message for review, a body that is no action
    message, a second message for review. *)
Definition batch_of_three : gmap string (list (gmap string string)) :=
  event_of [sqs_record_of review_message; malformed_record; sqs_record_of third_message].

End Demo.

(** Further states of the deployment [Demo], each the end of a run. *)
Module DemoRuns.
Import Demo.

(** The process [cold] after a run of the handler on the batch of
    [review_message] then [unregistered_message]. *)
Definition two_recorded : @World lib :=
  @mkWorld lib {[ "CONFIG_TABLE_NAME" := "hma-config" ]} (Some tt) (Some "hma-config") 1
            ["review key"] [(EnqueueForReview, ActionMessageObj review_message)]
            {[ table := [review_row;
                         ActionEvent.new "key-u" 1600000001 "Unregistered" ["rule:r3"]] ]}
            2 [review_message; unregistered_message].


(** The process [warm] after a turn of the loop on [broken_message]: the
    message is logged and the call noted, nothing else has changed. *)
Definition broken_attempted : @World lib :=
  @mkWorld lib {[ "CONFIG_TABLE_NAME" := "hma-config" ]} (Some tt) (Some "hma-config") 1
            [] [(Broken, ActionMessageObj broken_message)] ∅ 0 [broken_message].

(** A process with rows in a table the handler is not given. *)
Definition with_other_table : @World lib :=
  @mkWorld lib {[ "CONFIG_TABLE_NAME" := "hma-config" ]} None None 0 [] []
            {[ "other-table" := [review_row] ]} 0 [].

End DemoRuns.

(** A deployment whose configuration store cannot be reached at the
    first attempt: [HMAConfig.initialize] raises the first time it is
    called and returns from the second time on. The configuration is the
    number of attempts made; labels resolve once an attempt has
    succeeded. The rest is as in [Demo]. *)
Module Flaky.

Definition initialize (config_table : string) (attempts : nat) : outcome unit * nat :=
  match attempts with
  | O => (Raise (ConfigError "config table unreachable"), 1)
  | S _ => (Return tt, S attempts)
  end.

Definition get (attempts : nat) (name : string) : option Demo.performer :=
  match attempts with
  | O | 1 => None
  | _ => Demo.get (Some "hma-config") name
  end.

Definition lib : HmaLib := {|
  ActionRule := string;
  ActionRule_to_aws_json := Demo.rule_to_aws_json;
  ActionMessage_from_aws_json := Demo.from_aws_json;
  Config := nat;
  HMAConfig_initialize := initialize;
  External := list string;
  ActionPerformer := Demo.performer;
  ActionPerformer_get := get;
  ActionPerformer_perform_action := Demo.perform_action;
  put_item_accepts := fun _ _ ev => negb (String.eqb (ActionEvent.content_id ev) "");
  wall_clock := fun n => (1600000000 + Z.of_nat n)%Z;
|}.

(** A process that has just started, with its environment set. *)
Definition cold : @World lib :=
  @mkWorld lib {[ "CONFIG_TABLE_NAME" := "hma-config" ]} None 0 0 [] [] ∅ 0 [].

End Flaky.

(** * Properties *)

(** ** The wire format reads back what it wrote *)

Section WireFacts.
Import Wire.

Lemma append_String (c : ascii) (s rest : string) :
  String c s +:+ rest = String c (s +:+ rest).
Proof. reflexivity. Qed.

Lemma append_EmptyString (rest : string) : "" +:+ rest = rest.
Proof. reflexivity. Qed.

Lemma read_escaped_emit (s rest : string) :
  read_escaped (emit_escaped s (String dquote rest)) = Some (s, rest).
Proof.
  induction s as [|c s IH]; simpl.
  - reflexivity.
  - destruct (Ascii.eqb c dquote) eqn:Hq; simpl.
    + rewrite Hq. simpl. rewrite IH. reflexivity.
    + destruct (Ascii.eqb c backslash) eqn:Hb; simpl.
      * rewrite Hq, Hb. simpl. rewrite IH. reflexivity.
      * rewrite Hq, Hb, IH. reflexivity.
Qed.

Lemma p_string_emit (s rest : string) :
  p_string (emit_string s rest) = Some (s, rest).
Proof.
  unfold p_string, emit_string. change (Ascii.eqb dquote dquote) with true.
  apply read_escaped_emit.
Qed.

Lemma expect_append (lit rest : string) : expect lit (lit +:+ rest) = Some rest.
Proof.
  induction lit as [|c lit IH]; [reflexivity|].
  rewrite append_String. simpl. rewrite Ascii.eqb_refl. exact IH.
Qed.

Lemma emit_escaped_append (s t rest : string) :
  emit_escaped s t +:+ rest = emit_escaped s (t +:+ rest).
Proof.
  induction s as [|c s IH]; simpl; [reflexivity|].
  destruct (Ascii.eqb c dquote || Ascii.eqb c backslash)%bool;
    rewrite !append_String, IH; reflexivity.
Qed.

Lemma p_key_emit (name rest : string) : p_key name (emit_key name rest) = Some rest.
Proof.
  unfold p_key.
  replace (emit_key name rest) with (emit_key name "" +:+ rest).
  - apply expect_append.
  - unfold emit_key, emit_string.
    rewrite append_String, emit_escaped_append, !append_String, append_EmptyString.
    reflexivity.
Qed.

Lemma emit_escaped_length (s t : string) :
  String.length t <= String.length (emit_escaped s t).
Proof.
  induction s as [|c s IH]; simpl; [lia|].
  destruct (Ascii.eqb c dquote || Ascii.eqb c backslash)%bool; simpl; lia.
Qed.

Lemma emit_string_starts (s rest : string) :
  exists t, emit_string s rest = String dquote t /\ String.length rest < String.length t.
Proof.
  exists (emit_escaped s (String dquote rest)). split; [reflexivity|].
  pose proof (emit_escaped_length s (String dquote rest)) as Hl. simpl in Hl. lia.
Qed.

Lemma emit_string_longer (s rest tail : string) :
  String.length tail <= String.length rest ->
  String.length tail <= String.length (emit_string s rest).
Proof. destruct (emit_string_starts s rest) as (t & -> & Hl). simpl. lia. Qed.

Lemma emit_key_longer (name rest tail : string) :
  String.length tail <= String.length rest ->
  String.length tail <= String.length (emit_key name rest).
Proof.
  intros Hl. unfold emit_key. apply emit_string_longer.
  rewrite append_String, append_EmptyString. simpl. lia.
Qed.

Lemma String_longer (c : ascii) (rest tail : string) :
  String.length tail <= String.length rest ->
  String.length tail <= String.length (String c rest).
Proof. simpl. lia. Qed.

Lemma emit_signal_starts : starts_element emit_signal.
Proof.
  intros b rest. unfold emit_signal.
  rewrite !append_String, !append_EmptyString. eexists _, _.
  split; [reflexivity|]. split; [reflexivity|].
  repeat first [ apply emit_key_longer | apply emit_string_longer | apply String_longer ].
  reflexivity.
Qed.

#[local] Arguments expect : simpl never.
#[local] Arguments p_key : simpl never.
#[local] Arguments emit_key : simpl never.
#[local] Arguments p_string : simpl never.
#[local] Arguments emit_string : simpl never.
#[local] Arguments p_array : simpl never.
#[local] Arguments emit_array : simpl never.

Lemma mbind_Some {A B : Type} (x : A) (f : A -> option B) : (Some x ≫= f) = f x.
Proof. reflexivity. Qed.

(** One step of a parser on the text its printer wrote. *)
Ltac parse_step :=
  first [ rewrite p_key_emit | rewrite p_string_emit | rewrite expect_append ];
  rewrite mbind_Some; cbv beta iota.

Lemma p_signal_emit (b : BankedSignal.t) (rest : string) :
  p_signal (emit_signal b rest) = Some (b, rest).
Proof.
  destruct b as [sid bid bname]. unfold p_signal, emit_signal.
  cbv beta iota delta [BankedSignal.signal_id BankedSignal.bank_id BankedSignal.bank_name].
  repeat parse_step. reflexivity.
Qed.

Section Elements.
Context {A : Type} (emit : A -> string -> string) (p : parser A).
Hypothesis p_emit : forall a rest, p (emit a rest) = Some (a, rest).

Lemma p_elements_emit (l : list A) (fuel : nat) (rest : string) :
  l <> [] -> length l <= fuel ->
  p_elements p fuel (emit_elements emit l rest) = Some (l, rest).
Proof.
  revert fuel. induction l as [|a l IH]; intros fuel Hne Hfuel; [congruence|].
  destruct fuel as [|fuel]; [simpl in Hfuel; lia|].
  destruct l as [|b l].
  - simpl. rewrite p_emit. simpl. reflexivity.
  - change (emit_elements emit (a :: b :: l) rest)
      with (emit a ("," +:+ emit_elements emit (b :: l) rest)).
    simpl p_elements. rewrite p_emit. simpl.
    rewrite IH; [reflexivity|congruence|simpl in *; lia].
Qed.

Lemma emit_elements_length (l : list A) (rest : string) :
  starts_element emit ->
  length l <= String.length (emit_elements emit l rest).
Proof.
  intros Hs. induction l as [|a l IH]; [simpl; lia|].
  destruct l as [|b l].
  - simpl. destruct (Hs a ("]" +:+ rest)) as (c & s & -> & _ & Hl). simpl. lia.
  - change (emit_elements emit (a :: b :: l) rest)
      with (emit a ("," +:+ emit_elements emit (b :: l) rest)).
    destruct (Hs a ("," +:+ emit_elements emit (b :: l) rest)) as (c & s & -> & _ & Hl).
    rewrite append_String, append_EmptyString in Hl.
    change (length (a :: b :: l)) with (S (length (b :: l))).
    simpl String.length in *. lia.
Qed.

Lemma p_array_emit (l : list A) (rest : string) :
  starts_element emit ->
  p_array p (emit_array emit l rest) = Some (l, rest).
Proof.
  intros Hs. unfold p_array, emit_array.
  rewrite append_String, append_EmptyString.
  change (Ascii.eqb "[" "[") with true. cbv iota.
  destruct l as [|a l]; [reflexivity|].
  pose proof (emit_elements_length (a :: l) rest Hs) as Hlen.
  pose proof (p_elements_emit (a :: l) (String.length (emit_elements emit (a :: l) rest)) rest
                ltac:(congruence) Hlen) as Hp.
  assert (exists c s, emit_elements emit (a :: l) rest = String c s /\ Ascii.eqb c "]" = false)
    as (d & s & Hd & Hc).
  { destruct l as [|b l].
    - simpl. destruct (Hs a ("]" +:+ rest)) as (c & s' & He & Hc & _). eauto.
    - change (emit_elements emit (a :: b :: l) rest)
        with (emit a ("," +:+ emit_elements emit (b :: l) rest)).
      destruct (Hs a ("," +:+ emit_elements emit (b :: l) rest)) as (c & s' & He & Hc & _).
      eauto. }
  rewrite Hd in Hp |- *. rewrite Hc. exact Hp.
Qed.
End Elements.

Section RuleFacts.
Variable Rule : Type.
Variable rule_to_aws_json : Rule -> string.
Variable rule_from_aws_json : string -> option Rule.
Hypothesis rule_round_trip : forall r, rule_from_aws_json (rule_to_aws_json r) = Some r.

Lemma p_rule_emit (r : Rule) (rest : string) :
  p_rule Rule rule_from_aws_json (emit_rule Rule rule_to_aws_json r rest) = Some (r, rest).
Proof.
  unfold p_rule, emit_rule. parse_step.
  rewrite rule_round_trip. reflexivity.
Qed.

Lemma emit_rule_starts : starts_element (emit_rule Rule rule_to_aws_json).
Proof.
  intros r rest. unfold emit_rule.
  destruct (emit_string_starts (rule_to_aws_json r) rest) as (t & -> & Hl).
  exists dquote, t. split; [reflexivity|]. split; [reflexivity|lia].
Qed.

(** C6. Round trip of the wire format: serializing an action message and
    deserializing the text gives back a message equal to the original in
    all five fields, for any list of matched signals (so for every
    non-empty one) and any list of rules (empty, of one element, of
    several), provided each rule alone reads back from its own blob. *)
Theorem to_aws_json_round_trip (m : ActionMessage.t Rule) :
  from_aws_json Rule rule_from_aws_json (to_aws_json Rule rule_to_aws_json m) = Some m.
Proof.
  destruct m as [key hash signals [label] rules].
  unfold from_aws_json, to_aws_json.
  cbv beta iota delta [ActionMessage.content_key ActionMessage.matched_hash
    ActionMessage.matching_banked_signals ActionMessage.action_label
    ActionMessage.action_rules ActionLabel.value].
  repeat parse_step.
  rewrite (p_array_emit emit_signal p_signal p_signal_emit signals _ emit_signal_starts).
  rewrite mbind_Some; cbv beta iota.
  repeat parse_step.
  rewrite (p_array_emit _ _ p_rule_emit rules _ emit_rule_starts).
  rewrite mbind_Some; cbv beta iota.
  reflexivity.
Qed.
End RuleFacts.

End WireFacts.

(** ** Dispatch *)

Section DispatchFacts.
Context `{HmaLib}.

(** What dispatch does, by whether the registry resolves the label. *)
Lemma perform_label_action_unfold (o : message ActionRule) (l : ActionLabel.t) (w : World) :
  perform_label_action o l w =
    match ActionPerformer_get (hma_config w) (ActionLabel.value l) with
    | Some p =>
        match ActionPerformer_perform_action p o (external w) with
        | (Return _, x) => (Return true, after_perform x (performed w ++ [(p, o)]) w)
        | (Raise e, x) => (Raise e, after_perform x (performed w ++ [(p, o)]) w)
        end
    | None => (Return false, w)
    end.
Proof.
  unfold perform_label_action, bind, ActionPerformer_get_call, perform_action, ret.
  destruct (ActionPerformer_get (hma_config w) (ActionLabel.value l)) as [p|]; [|reflexivity].
  destruct (ActionPerformer_perform_action p o (external w)) as [[[]|e] x]; reflexivity.
Qed.

(** Dispatch touches the outside world and the note of calls, nothing
    else of the process. *)
Lemma perform_label_action_frame (o : message ActionRule) (l : ActionLabel.t) (w : World) :
  exists x calls,
    snd (perform_label_action o l w) = after_perform x (performed w ++ calls) w /\
    (calls = [] \/ exists p, calls = [(p, o)]).
Proof.
  rewrite perform_label_action_unfold.
  destruct (ActionPerformer_get (hma_config w) (ActionLabel.value l)) as [p|].
  - destruct (ActionPerformer_perform_action p o (external w)) as [[[]|e] x];
      exists x, [(p, o)]; simpl; eauto.
  - exists (external w), []. split; [|auto].
    rewrite app_nil_r. destruct w; reflexivity.
Qed.

(** C1, as the code has it. When the registry resolves the label of an
    action message to a performer, dispatch calls that performer exactly
    once and hands it the action message itself: the object's
    [content_key], [matched_hash] and [matching_banked_signals] are the
    message's, and its [action_label] and [action_rules] are still on it.
    Dispatch returns [True] when the performer returns and raises what the
    performer raises. *)
Theorem perform_label_action_registered
    (m : ActionMessage.t ActionRule) (p : ActionPerformer) (w : World) :
  ActionPerformer_get (hma_config w) (ActionLabel.value (ActionMessage.action_label m)) = Some p ->
  let handed := ActionMessageObj m in
  let ran := ActionPerformer_perform_action p handed (external w) in
  let after := perform_label_action handed (ActionMessage.action_label m) w in
  performed (snd after) = performed w ++ [(p, handed)] /\
  external (snd after) = snd ran /\
  fst after = match fst ran with Return _ => Return true | Raise e => Raise e end /\
  message_content_key handed = ActionMessage.content_key m /\
  message_matched_hash handed = ActionMessage.matched_hash m /\
  message_matching_banked_signals handed = ActionMessage.matching_banked_signals m /\
  message_action_label handed = Some (ActionMessage.action_label m) /\
  message_action_rules handed = Some (ActionMessage.action_rules m).
Proof.
  intros Hget handed ran after. subst after ran.
  rewrite perform_label_action_unfold, Hget.
  destruct (ActionPerformer_perform_action p handed (external w)) as [[[]|e] x];
    simpl; repeat split; reflexivity.
Qed.

(** C4. For a label the registry does not resolve, dispatch returns
    [False] and leaves the whole process state as it was: no performer is
    called, nothing is written, nothing is raised. *)
Theorem perform_label_action_unregistered
    (o : message ActionRule) (l : ActionLabel.t) (w : World) :
  ActionPerformer_get (hma_config w) (ActionLabel.value l) = None ->
  perform_label_action o l w = (Return false, w).
Proof. intros Hget. rewrite perform_label_action_unfold, Hget. reflexivity. Qed.

(** C5. When the performer the label resolves to raises, dispatch ends
    with that very exception: the performer was called once and not again,
    what it did to the outside world before raising stays, and no table of
    the store has changed. *)
Theorem perform_label_action_propagates
    (o : message ActionRule) (l : ActionLabel.t) (p : ActionPerformer)
    (e : exn) (x : External) (w : World) :
  ActionPerformer_get (hma_config w) (ActionLabel.value l) = Some p ->
  ActionPerformer_perform_action p o (external w) = (Raise e, x) ->
  perform_label_action o l w = (Raise e, after_perform x (performed w ++ [(p, o)]) w) /\
  performed (snd (perform_label_action o l w)) = performed w ++ [(p, o)] /\
  dynamodb (snd (perform_label_action o l w)) = dynamodb w.
Proof.
  intros Hget Hrun. rewrite perform_label_action_unfold, Hget, Hrun.
  repeat split; reflexivity.
Qed.

End DispatchFacts.

(** ** Once-only initialisation *)

Section InitFacts.
Context `{HmaLib}.

Lemma lambda_init_once_unfold (w : World) :
  lambda_init_once w =
    match init_cache w with
    | Some r => (Return r, w)
    | None =>
        match environ w !! "CONFIG_TABLE_NAME" with
        | None => (Raise (KeyError "CONFIG_TABLE_NAME"), w)
        | Some config_table =>
            match HMAConfig_initialize config_table (hma_config w) with
            | (Return r, c) => (Return r, set_init_cache (Some r) (after_initialize c w))
            | (Raise e, c) => (Raise e, after_initialize c w)
            end
        end
    end.
Proof.
  unfold lambda_init_once, lambda_init_once_body, bind, os_environ, subscript,
    HMAConfig_initialize_call, ret, raise.
  destruct (init_cache w); [reflexivity|].
  destruct (environ w !! "CONFIG_TABLE_NAME") as [t|]; [|reflexivity].
  destruct (HMAConfig_initialize t (hma_config w)) as [[r|e] c]; reflexivity.
Qed.

(** A call that returns leaves the slot of the cache filled. *)
Lemma lambda_init_once_fills (w w1 : World) (r : unit) :
  lambda_init_once w = (Return r, w1) -> init_cache w1 = Some tt.
Proof.
  rewrite lambda_init_once_unfold.
  destruct (init_cache w) as [[]|] eqn:Hc.
  - intros [= _ <-]. exact Hc.
  - destruct (environ w !! "CONFIG_TABLE_NAME") as [t|]; [|discriminate].
    destruct (HMAConfig_initialize t (hma_config w)) as [[[]|e] c]; [|discriminate].
    intros [= _ <-]. reflexivity.
Qed.

(** With the slot filled, a call returns at once and changes nothing. *)
Lemma lambda_init_once_cached (w : World) :
  init_cache w = Some tt -> lambda_init_once w = (Return tt, w).
Proof. intros Hc. rewrite lambda_init_once_unfold, Hc. reflexivity. Qed.

(** Initialisation calls no performer and writes to no table. *)
Lemma lambda_init_once_frame (w : World) :
  let w1 := snd (lambda_init_once w) in
  performed w1 = performed w /\ external w1 = external w /\ dynamodb w1 = dynamodb w /\
  clock_reads w1 = clock_reads w /\ logged w1 = logged w /\ environ w1 = environ w.
Proof.
  rewrite lambda_init_once_unfold.
  destruct (init_cache w); [simpl; tauto|].
  destruct (environ w !! "CONFIG_TABLE_NAME") as [t|]; [|simpl; tauto].
  destruct (HMAConfig_initialize t (hma_config w)) as [[r|e] c]; simpl; tauto.
Qed.

Lemma times_lambda_init_once_cached (n : nat) (w : World) :
  init_cache w = Some tt -> times n lambda_init_once w = (Return tt, w).
Proof.
  intros Hc. induction n as [|n IH]; [reflexivity|].
  simpl. unfold bind. rewrite (lambda_init_once_cached w Hc). exact IH.
Qed.

(** C7, as the code has it. Once a call of [lambda_init_once] has
    returned, the second call and any number of further calls in the same
    process return at once and leave the process state exactly as that
    call left it: the same configuration, the same performer resolved (or
    none) for every label, and no further call of [HMAConfig.initialize]. *)
Theorem lambda_init_once_idempotent (w w1 : World) :
  lambda_init_once w = (Return tt, w1) ->
  lambda_init_once w1 = (Return tt, w1) /\
  (forall n, times n lambda_init_once w1 = (Return tt, w1)) /\
  (forall n name,
     let wn := snd (times n lambda_init_once w1) in
     hma_config wn = hma_config w1 /\
     initialize_calls wn = initialize_calls w1 /\
     ActionPerformer_get (hma_config wn) name = ActionPerformer_get (hma_config w1) name).
Proof.
  intros Hfirst. pose proof (lambda_init_once_fills _ _ _ Hfirst) as Hc.
  split; [exact (lambda_init_once_cached w1 Hc)|].
  split; [intros n; exact (times_lambda_init_once_cached n w1 Hc)|].
  intros n name. simpl. rewrite (times_lambda_init_once_cached n w1 Hc). simpl. tauto.
Qed.

End InitFacts.

(** ** The intake loop *)

Section LoopFacts.
Context `{HmaLib}.
Variable DYNAMODB_TABLE : string.

Lemma for_each_app {A : Type} (body : A -> py unit) (l1 l2 : list A) (w : World) :
  for_each body (l1 ++ l2) w =
    match for_each body l1 w with
    | (Return _, w1) => for_each body l2 w1
    | (Raise e, w1) => (Raise e, w1)
    end.
Proof.
  revert w. induction l1 as [|a l1 IH]; intros w; [reflexivity|].
  simpl. unfold bind. destruct (body a w) as [[[]|e] w1]; [apply IH|reflexivity].
Qed.

Lemma process_record_unfold (table : string) (r : gmap string string) (w : World) :
  process_record table r w =
    match r !! "body" with
    | None => (Raise (KeyError "body"), w)
    | Some body =>
        match ActionMessage_from_aws_json body with
        | Raise e => (Raise e, w)
        | Return m =>
            match perform_label_action (ActionMessageObj m) (ActionMessage.action_label m)
                    (set_logged (logged w ++ [m]) w) with
            | (Raise e, w1) => (Raise e, w1)
            | (Return _, w1) =>
                ActionEvent_write_to_table
                  (action_event_of m (wall_clock (clock_reads w1))) table
                  (set_clock_reads (S (clock_reads w1)) w1)
            end
        end
    end.
Proof.
  unfold process_record, bind, subscript, ret, raise, ActionMessage_from_aws_json_call,
    logger_info, datetime_now.
  destruct (r !! "body") as [body|]; [|reflexivity].
  destruct (ActionMessage_from_aws_json body) as [m|e]; [|reflexivity].
  destruct (perform_label_action _ _ _) as [[b|e] w1]; reflexivity.
Qed.

Lemma lambda_handler_unfold (event : gmap string (list (gmap string string)))
    (context : unit) (w : World) :
  lambda_handler DYNAMODB_TABLE event context w =
    match lambda_init_once w with
    | (Raise e, w0) => (Raise e, w0)
    | (Return _, w0) =>
        match event !! "Records" with
        | None => (Raise (KeyError "Records"), w0)
        | Some records =>
            match for_each (process_record DYNAMODB_TABLE) records w0 with
            | (Raise e, w1) => (Raise e, w1)
            | (Return _, w1) => (Return {[ "action_performed" := "true" ]}, w1)
            end
        end
    end.
Proof.
  unfold lambda_handler, bind, subscript, ret, raise.
  destruct (lambda_init_once w) as [[r|e] w0]; [|reflexivity].
  destruct (event !! "Records") as [records|]; [|reflexivity].
  destruct (for_each _ records w0) as [[r'|e] w1]; reflexivity.
Qed.

Lemma table_rows_written (table : string) (rows : list ActionEvent.t) (w : World) :
  table_rows table (set_dynamodb (<[table := rows]> (dynamodb w)) w) = rows.
Proof. unfold table_rows. simpl. rewrite lookup_insert_eq. reflexivity. Qed.

Lemma write_to_table_returns (ev : ActionEvent.t) (table : string) (w w1 : World) (u : unit) :
  ActionEvent_write_to_table ev table w = (Return u, w1) ->
  w1 = set_dynamodb (<[table := table_rows table w ++ [ev]]> (dynamodb w)) w.
Proof.
  unfold ActionEvent_write_to_table.
  destruct (put_item_accepts table (table_rows table w) ev); [|discriminate].
  intros [= _ <-]. reflexivity.
Qed.

Lemma write_to_table_raises (ev : ActionEvent.t) (table : string) (w w1 : World) (e : exn) :
  ActionEvent_write_to_table ev table w = (Raise e, w1) -> w1 = w.
Proof.
  unfold ActionEvent_write_to_table.
  destruct (put_item_accepts table (table_rows table w) ev); [discriminate|].
  intros [= _ <-]. reflexivity.
Qed.

(** Dispatch leaves the store, the clock and the log alone. *)
Lemma perform_label_action_keeps (o : message ActionRule) (l : ActionLabel.t) (w : World) :
  let w1 := snd (perform_label_action o l w) in
  dynamodb w1 = dynamodb w /\ clock_reads w1 = clock_reads w /\ logged w1 = logged w.
Proof.
  destruct (perform_label_action_frame o l w) as (x & calls & -> & _). simpl. tauto.
Qed.

(** A turn of the loop that returns has appended one row to the records
    table, the row of its record. *)
Lemma process_record_returns (table : string) (r : gmap string string)
    (w w1 : World) (u : unit) :
  process_record table r w = (Return u, w1) ->
  exists row, row_of_record r row /\ table_rows table w1 = table_rows table w ++ [row].
Proof.
  rewrite process_record_unfold.
  destruct (r !! "body") as [body|] eqn:Hbody; [|discriminate].
  destruct (ActionMessage_from_aws_json body) as [m|e] eqn:Hm; [|discriminate].
  pose proof (perform_label_action_keeps (ActionMessageObj m) (ActionMessage.action_label m)
                (set_logged (logged w ++ [m]) w)) as (Hdb & _ & _).
  destruct (perform_label_action _ _ _) as [[b|e] w2]; [|discriminate].
  simpl in Hdb. intros Hw. apply write_to_table_returns in Hw. subst w1.
  exists (action_event_of m (wall_clock (clock_reads w2))). split.
  - exists body, m, (wall_clock (clock_reads w2)). auto.
  - rewrite table_rows_written. unfold table_rows. simpl. rewrite Hdb. reflexivity.
Qed.

(** A turn of the loop that raises has written nothing. *)
Lemma process_record_raises (table : string) (r : gmap string string)
    (w w1 : World) (e : exn) :
  process_record table r w = (Raise e, w1) -> dynamodb w1 = dynamodb w.
Proof.
  rewrite process_record_unfold.
  destruct (r !! "body") as [body|]; [|intros [= _ <-]; reflexivity].
  destruct (ActionMessage_from_aws_json body) as [m|e']; [|intros [= _ <-]; reflexivity].
  pose proof (perform_label_action_keeps (ActionMessageObj m) (ActionMessage.action_label m)
                (set_logged (logged w ++ [m]) w)) as (Hdb & _ & _).
  destruct (perform_label_action _ _ _) as [[b|e'] w2]; simpl in Hdb.
  - intros Hw. apply write_to_table_raises in Hw. subst w1. exact Hdb.
  - intros [= _ <-]. exact Hdb.
Qed.

(** A turn of the loop forgets no call already noted. *)
Lemma process_record_performed (table : string) (r : gmap string string) (w : World) :
  exists calls, performed (snd (process_record table r w)) = performed w ++ calls.
Proof.
  rewrite process_record_unfold.
  destruct (r !! "body") as [body|]; [|exists []; simpl; rewrite app_nil_r; reflexivity].
  destruct (ActionMessage_from_aws_json body) as [m|e];
    [|exists []; simpl; rewrite app_nil_r; reflexivity].
  destruct (perform_label_action_frame (ActionMessageObj m) (ActionMessage.action_label m)
              (set_logged (logged w ++ [m]) w)) as (x & calls & Hw & _).
  exists calls.
  destruct (perform_label_action _ _ _) as [[b|e] w1]; simpl in Hw; subst w1.
  - unfold ActionEvent_write_to_table.
    destruct (put_item_accepts _ _ _); reflexivity.
  - reflexivity.
Qed.

(** The rows the loop appends are the rows of the records it got through,
    one each and in their order; when the loop returns it got through all
    of them. *)
Lemma for_each_rows (table : string) (records : list (gmap string string)) (w : World) :
  exists rows,
    table_rows table (snd (for_each (process_record table) records w))
      = table_rows table w ++ rows /\
    Forall2 row_of_record (take (length rows) records) rows /\
    (forall u, fst (for_each (process_record table) records w) = Return u ->
               length rows = length records).
Proof.
  revert w. induction records as [|r records IH]; intros w.
  - exists []. simpl. rewrite app_nil_r. repeat split; auto.
  - simpl. unfold bind. destruct (process_record table r w) as [[u|e] w1] eqn:Hr.
    + apply process_record_returns in Hr as (row & Hrow & Hrows).
      destruct (IH w1) as (rows & Heq & Hall & Hlen).
      exists (row :: rows). split; [|split].
      * rewrite Heq, Hrows, <- app_assoc. reflexivity.
      * simpl. constructor; assumption.
      * intros u' Hu. simpl. f_equal. eauto.
    + apply process_record_raises in Hr.
      exists []. simpl. split; [|split].
      * unfold table_rows. rewrite Hr, app_nil_r. reflexivity.
      * constructor.
      * discriminate.
Qed.

(** C2, as the code has it. The loop has no handler for exceptions: when
    the records before [r] were processed and the turn on [r] raises [e]
    (its body is missing or does not deserialize, its performer raises, or
    the store refuses its row), [lambda_handler] ends there with [e]. The
    failure is not swallowed; the turn that failed wrote no row; and the
    records after [r] are not attempted: the run is the run of the batch
    cut after [r]. *)
Theorem lambda_handler_stops_at_first_failure
    (event : gmap string (list (gmap string string))) (context : unit)
    (pre post : list (gmap string string)) (r : gmap string string)
    (e : exn) (w w0 w1 w2 : World) :
  lambda_init_once w = (Return tt, w0) ->
  event !! "Records" = Some (pre ++ r :: post) ->
  for_each (process_record DYNAMODB_TABLE) pre w0 = (Return tt, w1) ->
  process_record DYNAMODB_TABLE r w1 = (Raise e, w2) ->
  lambda_handler DYNAMODB_TABLE event context w = (Raise e, w2) /\
  dynamodb w2 = dynamodb w1 /\
  (exists calls, performed w2 = performed w1 ++ calls) /\
  lambda_handler DYNAMODB_TABLE (<["Records" := pre ++ [r]]> event) context w = (Raise e, w2).
Proof.
  intros Hinit Hrecords Hpre Hr.
  assert (forall tail, for_each (process_record DYNAMODB_TABLE) (pre ++ r :: tail) w0
                       = (Raise e, w2)) as Hloop.
  { intros tail. rewrite for_each_app, Hpre. simpl. unfold bind. rewrite Hr. reflexivity. }
  split; [|split; [|split]].
  - rewrite lambda_handler_unfold, Hinit, Hrecords, Hloop. reflexivity.
  - exact (process_record_raises _ _ _ _ _ Hr).
  - pose proof (process_record_performed DYNAMODB_TABLE r w1) as Hcalls.
    rewrite Hr in Hcalls. exact Hcalls.
  - rewrite lambda_handler_unfold, Hinit, lookup_insert_eq, Hloop. reflexivity.
Qed.

(** C3, as the code has it. For a record whose body deserializes to [m]
    and whose dispatch returns, whether with [True] (a performer ran) or
    with [False] (none was found), the turn of the loop goes on to exactly
    one write: of the [ActionEvent] with the [content_key] of [m], the
    reading of the clock taken then, the value of the label of [m] and one
    blob per rule of [m]. When the store takes it, the turn returns and
    the records table has gained that one row. *)
Theorem process_record_records_after_dispatch
    (r : gmap string string) (body : string) (m : ActionMessage.t ActionRule)
    (found : bool) (w w1 : World) :
  r !! "body" = Some body ->
  ActionMessage_from_aws_json body = Return m ->
  perform_label_action (ActionMessageObj m) (ActionMessage.action_label m)
    (set_logged (logged w ++ [m]) w) = (Return found, w1) ->
  let row :=
    ActionEvent.new (ActionMessage.content_key m) (wall_clock (clock_reads w))
      (ActionLabel.value (ActionMessage.action_label m))
      (map ActionRule_to_aws_json (ActionMessage.action_rules m)) in
  process_record DYNAMODB_TABLE r w
    = ActionEvent_write_to_table row DYNAMODB_TABLE (set_clock_reads (S (clock_reads w)) w1) /\
  (put_item_accepts DYNAMODB_TABLE (table_rows DYNAMODB_TABLE w) row = true ->
   fst (process_record DYNAMODB_TABLE r w) = Return tt /\
   table_rows DYNAMODB_TABLE (snd (process_record DYNAMODB_TABLE r w))
     = table_rows DYNAMODB_TABLE w ++ [row]).
Proof.
  intros Hbody Hm Hdispatch row.
  pose proof (perform_label_action_keeps (ActionMessageObj m) (ActionMessage.action_label m)
                (set_logged (logged w ++ [m]) w)) as (Hdb & Hclock & _).
  rewrite Hdispatch in Hdb, Hclock. simpl in Hdb, Hclock.
  assert (process_record DYNAMODB_TABLE r w
          = ActionEvent_write_to_table row DYNAMODB_TABLE
              (set_clock_reads (S (clock_reads w)) w1)) as Hturn.
  { rewrite process_record_unfold, Hbody, Hm, Hdispatch, Hclock. reflexivity. }
  split; [exact Hturn|].
  intros Haccepts. rewrite Hturn. unfold ActionEvent_write_to_table.
  assert (table_rows DYNAMODB_TABLE (set_clock_reads (S (clock_reads w)) w1)
          = table_rows DYNAMODB_TABLE w) as Hrows.
  { unfold table_rows. simpl. rewrite Hdb. reflexivity. }
  rewrite Hrows, Haccepts. simpl. split; [reflexivity|].
  apply (table_rows_written DYNAMODB_TABLE _ (set_clock_reads (S (clock_reads w)) w1)).
Qed.

(** C8. The rows a run of [lambda_handler] appends to the records table
    are, in order, the rows of the records it got through, and in each the
    [action_rules] field is the list of the blobs of the rules of the
    message, rule by rule: the same length, and at every index the
    serialization of the rule at that index. *)
Theorem recorded_rules_one_blob_per_rule
    (event : gmap string (list (gmap string string))) (context : unit) (w : World) :
  exists rows,
    table_rows DYNAMODB_TABLE (snd (lambda_handler DYNAMODB_TABLE event context w))
      = table_rows DYNAMODB_TABLE w ++ rows /\
    Forall2
      (fun r row =>
         exists body m,
           r !! "body" = Some body /\
           ActionMessage_from_aws_json body = Return m /\
           ActionEvent.action_rules row
             = map ActionRule_to_aws_json (ActionMessage.action_rules m) /\
           length (ActionEvent.action_rules row) = length (ActionMessage.action_rules m) /\
           forall i, ActionEvent.action_rules row !! i
                     = ActionRule_to_aws_json <$> ActionMessage.action_rules m !! i)
      (take (length rows) (default [] (event !! "Records"))) rows.
Proof.
  rewrite lambda_handler_unfold.
  pose proof (lambda_init_once_frame w) as (_ & _ & Hdb & _).
  destruct (lambda_init_once w) as [[u|e] w0]; simpl in Hdb.
  2:{ exists []. simpl. unfold table_rows. rewrite Hdb, app_nil_r. split; [reflexivity|constructor]. }
  destruct (event !! "Records") as [records|]; simpl.
  2:{ exists []. simpl. unfold table_rows. rewrite Hdb, app_nil_r. split; [reflexivity|constructor]. }
  destruct (for_each_rows DYNAMODB_TABLE records w0) as (rows & Heq & Hall & _).
  exists rows. split.
  - assert (table_rows DYNAMODB_TABLE w = table_rows DYNAMODB_TABLE w0) as ->
      by (unfold table_rows; rewrite Hdb; reflexivity).
    rewrite <- Heq.
    destruct (for_each (process_record DYNAMODB_TABLE) records w0) as [[u'|e] w1]; reflexivity.
  - eapply Forall2_impl; [exact Hall|].
    intros r row (body & m & now & Hbody & Hm & ->).
    exists body, m. simpl. repeat split; auto.
    + apply length_map.
    + intros i. apply list_lookup_fmap.
Qed.

(** C9, as the code has it. On an event whose [Records] list is empty,
    [lambda_handler] calls no performer and leaves the outside world and
    every table as they were. It returns the success indicator when the
    once-only initialisation, which runs first, returns; what the
    initialisation raises propagates instead. *)
Theorem lambda_handler_empty_batch
    (event : gmap string (list (gmap string string))) (context : unit) (w : World) :
  event !! "Records" = Some [] ->
  let after := lambda_handler DYNAMODB_TABLE event context w in
  performed (snd after) = performed w /\
  external (snd after) = external w /\
  dynamodb (snd after) = dynamodb w /\
  after = match lambda_init_once w with
          | (Return _, w0) => (Return {[ "action_performed" := "true" ]}, w0)
          | (Raise e, w0) => (Raise e, w0)
          end.
Proof.
  intros Hrecords after. subst after.
  rewrite lambda_handler_unfold, Hrecords.
  pose proof (lambda_init_once_frame w) as (Hp & Hx & Hdb & _).
  destruct (lambda_init_once w) as [[[]|e] w0]; simpl in *; auto.
Qed.

(** C10. Whenever [lambda_handler] returns, what it returns is the
    one-entry dict [{"action_performed": "true"}], whatever the batch and
    whatever the dispatches found; the dict has no other key. *)
Theorem lambda_handler_returns_success
    (event : gmap string (list (gmap string string))) (context : unit)
    (w w' : World) (result : gmap string string) :
  lambda_handler DYNAMODB_TABLE event context w = (Return result, w') ->
  result = {[ "action_performed" := "true" ]} /\
  dom result = {[ "action_performed" ]}.
Proof.
  rewrite lambda_handler_unfold.
  destruct (lambda_init_once w) as [[u|e] w0]; [|discriminate].
  destruct (event !! "Records") as [records|]; [|discriminate].
  destruct (for_each _ records w0) as [[u'|e] w1]; [|discriminate].
  intros [= <- _]. split; [reflexivity|]. apply dom_singleton_L.
Qed.

End LoopFacts.

(** * The theorems at work on the deployment [Demo] *)

Section Runs.
Import Demo.

(** The run of the source's [__main__] in a fresh process: the performer
    for review is called once with the message, one row is written, and
    the handler returns the success indicator. *)
Example main_runs :
  fst (main cold) = Return success /\
  performed (snd (main cold)) = [(EnqueueForReview, ActionMessageObj main_message)] /\
  table_rows table (snd (main cold))
    = [ActionEvent.new "key" 1600000000 "EnqueForReview" []] /\
  initialize_calls (snd (main cold)) = 1.
Proof. vm_compute. repeat split; reflexivity. Qed.

(** The claim C1 fails as stated: the webhook performer is called with
    the action message itself, not with a match message of its three
    shared fields, and posts the label it reads on it; handed the
    three-field view it would have found no label. *)
Lemma perform_label_action_hands_whole_message :
  let m := webhook_message in
  let after := @perform_label_action lib (ActionMessageObj m) (ActionMessage.action_label m) warm in
  @ActionPerformer_get lib (hma_config warm) "Webhook" = Some Webhook /\
  fst after = Return true /\
  performed (snd after) = [(Webhook, ActionMessageObj m)] /\
  performed (snd after) <> [(Webhook, MatchMessageObj (ActionMessage.match_view m))] /\
  external (snd after) = ["POST key-w label=Webhook"] /\
  snd (perform_action Webhook (MatchMessageObj (ActionMessage.match_view m)) [])
    = ["POST key-w label=(none)"].
Proof. vm_compute. repeat split; try reflexivity. discriminate. Qed.

Lemma perform_label_action_registered_witness :
  @ActionPerformer_get lib (hma_config warm) "EnqueForReview" = Some EnqueueForReview /\
  let after := @perform_label_action lib (ActionMessageObj review_message)
                 (ActionLabel.new "EnqueForReview") warm in
  performed (snd after) = [(EnqueueForReview, ActionMessageObj review_message)] /\
  external (snd after) = ["review key"] /\
  fst after = Return true /\
  message_action_rules (ActionMessageObj review_message) = Some ["r1"; "r2"].
Proof.
  split; [reflexivity|].
  destruct (@perform_label_action_registered lib review_message EnqueueForReview warm eq_refl)
    as (Hp & Hx & Hr & _ & _ & _ & _ & Hrules).
  exact (conj Hp (conj Hx (conj Hr Hrules))).
Defined.

Lemma perform_label_action_unregistered_witness :
  @ActionPerformer_get lib (hma_config warm) "Unregistered" = None /\
  @perform_label_action lib (ActionMessageObj unregistered_message)
    (ActionLabel.new "Unregistered") warm = (Return false, warm).
Proof.
  split; [reflexivity|].
  apply (@perform_label_action_unregistered lib). reflexivity.
Defined.

Lemma perform_label_action_propagates_witness :
  @ActionPerformer_get lib (hma_config warm) "Broken" = Some Broken /\
  perform_action Broken (ActionMessageObj broken_message) []
    = (Raise (HandlerExecutionError "endpoint unreachable"), []) /\
  let after := @perform_label_action lib (ActionMessageObj broken_message)
                 (ActionLabel.new "Broken") warm in
  fst after = Raise (HandlerExecutionError "endpoint unreachable") /\
  performed (snd after) = [(Broken, ActionMessageObj broken_message)] /\
  dynamodb (snd after) = ∅.
Proof.
  split; [reflexivity|]. split; [reflexivity|].
  destruct (@perform_label_action_propagates lib (ActionMessageObj broken_message)
              (ActionLabel.new "Broken") Broken
              (HandlerExecutionError "endpoint unreachable") [] warm eq_refl eq_refl)
    as (Hrun & Hp & Hdb).
  exact (conj (f_equal fst Hrun) (conj Hp Hdb)).
Defined.

Lemma demo_rule_round_trip (r : string) : rule_from_aws_json (rule_to_aws_json r) = Some r.
Proof. apply expect_append. Qed.

Lemma to_aws_json_round_trip_witness :
  (forall r, rule_from_aws_json (rule_to_aws_json r) = Some r) /\
  Wire.from_aws_json string rule_from_aws_json
    (Wire.to_aws_json string rule_to_aws_json awkward_message) = Some awkward_message /\
  Wire.from_aws_json string rule_from_aws_json
    (Wire.to_aws_json string rule_to_aws_json third_message) = Some third_message.
Proof.
  split; [exact demo_rule_round_trip|].
  split; apply (to_aws_json_round_trip string rule_to_aws_json rule_from_aws_json
                  demo_rule_round_trip).
Defined.

(** The claim C7 fails as stated: where the first call of
    [lambda_init_once] raises, nothing is cached, and the second call
    runs the body again: [HMAConfig.initialize] is called a second time,
    the configuration changes, and a label that resolved to nothing after
    one call resolves to a performer after two. *)
Lemma lambda_init_once_retries_after_raise :
  let once := @lambda_init_once Flaky.lib Flaky.cold in
  let twice := @lambda_init_once Flaky.lib (snd once) in
  fst once = Raise (ConfigError "config table unreachable") /\
  init_cache (snd once) = None /\
  initialize_calls (snd once) = 1 /\
  fst twice = Return tt /\
  initialize_calls (snd twice) = 2 /\
  hma_config (snd twice) <> hma_config (snd once) /\
  @ActionPerformer_get Flaky.lib (hma_config (snd once)) "EnqueForReview" = None /\
  @ActionPerformer_get Flaky.lib (hma_config (snd twice)) "EnqueForReview"
    = Some EnqueueForReview.
Proof. repeat split; try reflexivity. discriminate. Qed.

Lemma lambda_init_once_idempotent_witness :
  @lambda_init_once lib cold = (Return tt, warm) /\
  @lambda_init_once lib warm = (Return tt, warm) /\
  times 5 (@lambda_init_once lib) warm = (Return tt, warm) /\
  initialize_calls (snd (times 5 (@lambda_init_once lib) warm)) = 1.
Proof.
  split; [reflexivity|].
  destruct (@lambda_init_once_idempotent lib cold warm eq_refl) as (Hsecond & Hmany & Hstate).
  split; [exact Hsecond|]. split; [exact (Hmany 5)|].
  exact (proj1 (proj2 (Hstate 5 "EnqueForReview"))).
Defined.

(** The claim C2 fails as stated: in a batch of three whose second body
    does not deserialize, [lambda_handler] raises at the second record.
    The third record, whose body is a well-formed message, is neither
    logged nor dispatched nor recorded: the table holds the row of the
    first message alone. *)
Lemma lambda_handler_abandons_rest_of_batch :
  let after := @lambda_handler lib table batch_of_three tt cold in
  from_aws_json (to_aws_json third_message) = Return third_message /\
  fst after = Raise (DeserializationError "not an action message") /\
  logged (snd after) = [review_message] /\
  performed (snd after) = [(EnqueueForReview, ActionMessageObj review_message)] /\
  table_rows table (snd after) = [review_row].
Proof. vm_compute. repeat split; reflexivity. Qed.

Lemma lambda_handler_stops_at_first_failure_witness :
  @lambda_init_once lib cold = (Return tt, warm) /\
  batch_of_three !! "Records"
    = Some ([sqs_record_of review_message] ++ malformed_record :: [sqs_record_of third_message]) /\
  for_each (@process_record lib table) [sqs_record_of review_message] warm
    = (Return tt, reviewed) /\
  @process_record lib table malformed_record reviewed
    = (Raise (DeserializationError "not an action message"), reviewed) /\
  @lambda_handler lib table batch_of_three tt cold
    = (Raise (DeserializationError "not an action message"), reviewed).
Proof.
  assert (@lambda_init_once lib cold = (Return tt, warm)) as Hinit by reflexivity.
  assert (batch_of_three !! "Records"
          = Some ([sqs_record_of review_message] ++ malformed_record
                    :: [sqs_record_of third_message])) as Hrecords
    by reflexivity.
  assert (for_each (@process_record lib table) [sqs_record_of review_message] warm
          = (Return tt, reviewed)) as Hpre by reflexivity.
  assert (@process_record lib table malformed_record reviewed
          = (Raise (DeserializationError "not an action message"), reviewed)) as Hr
    by reflexivity.
  exact (conj Hinit (conj Hrecords (conj Hpre (conj Hr
    (proj1 (@lambda_handler_stops_at_first_failure lib table batch_of_three tt
              [sqs_record_of review_message] [sqs_record_of third_message] malformed_record
              (DeserializationError "not an action message") cold warm reviewed reviewed
              Hinit Hrecords Hpre Hr)))))).
Defined.

(** The claim C3 fails as stated: the body of the one record of this
    batch deserializes, its performer raises, and no row is written for
    it. *)
Lemma lambda_handler_writes_no_row_when_performer_raises :
  let after := @lambda_handler lib table (event_of [sqs_record_of broken_message]) tt cold in
  from_aws_json (to_aws_json broken_message) = Return broken_message /\
  fst after = Raise (HandlerExecutionError "endpoint unreachable") /\
  performed (snd after) = [(Broken, ActionMessageObj broken_message)] /\
  table_rows table (snd after) = [].
Proof. vm_compute. repeat split; reflexivity. Qed.

Lemma process_record_records_after_dispatch_witness :
  let r := sqs_record_of unregistered_message in
  let row := ActionEvent.new "key-u" 1600000000 "Unregistered" ["rule:r3"] in
  r !! "body" = Some (to_aws_json unregistered_message) /\
  from_aws_json (to_aws_json unregistered_message) = Return unregistered_message /\
  @perform_label_action lib (ActionMessageObj unregistered_message)
    (ActionLabel.new "Unregistered") (@set_logged lib [unregistered_message] warm)
    = (Return false, @set_logged lib [unregistered_message] warm) /\
  @process_record lib table r warm
    = ActionEvent_write_to_table row table
        (@set_clock_reads lib 1 (@set_logged lib [unregistered_message] warm)) /\
  fst (@process_record lib table r warm) = Return tt /\
  table_rows table (snd (@process_record lib table r warm)) = [row].
Proof.
  intros r row.
  assert (r !! "body" = Some (to_aws_json unregistered_message)) as Hbody
    by reflexivity.
  assert (from_aws_json (to_aws_json unregistered_message) = Return unregistered_message)
    as Hm by reflexivity.
  assert (@perform_label_action lib (ActionMessageObj unregistered_message)
            (ActionLabel.new "Unregistered") (@set_logged lib [unregistered_message] warm)
          = (Return false, @set_logged lib [unregistered_message] warm)) as Hdispatch
    by reflexivity.
  destruct (@process_record_records_after_dispatch lib table r
              (to_aws_json unregistered_message) unregistered_message false warm
              (@set_logged lib [unregistered_message] warm) Hbody Hm Hdispatch)
    as (Hturn & Hrow).
  destruct (Hrow eq_refl) as (Hret & Hrows).
  exact (conj Hbody (conj Hm (conj Hdispatch (conj Hturn (conj Hret Hrows))))).
Defined.

(** The claim C9 fails as stated: in a process whose environment lacks
    [CONFIG_TABLE_NAME], the handler raises on an empty batch instead of
    returning the success indicator. *)
Lemma lambda_handler_empty_batch_unconfigured :
  event_of [] !! "Records" = Some [] /\
  @lambda_handler lib table (event_of []) tt unconfigured
    = (Raise (KeyError "CONFIG_TABLE_NAME"), unconfigured).
Proof. split; reflexivity. Qed.

Lemma lambda_handler_empty_batch_witness :
  event_of [] !! "Records" = Some [] /\
  @lambda_handler lib table (event_of []) tt cold = (Return success, warm) /\
  performed (snd (@lambda_handler lib table (event_of []) tt cold)) = [] /\
  dynamodb (snd (@lambda_handler lib table (event_of []) tt cold)) = ∅.
Proof.
  assert (event_of [] !! "Records" = Some []) as Hrecords by reflexivity.
  destruct (@lambda_handler_empty_batch lib table (event_of []) tt cold Hrecords)
    as (Hp & _ & Hdb & Hret).
  exact (conj Hrecords (conj Hret (conj Hp Hdb))).
Defined.

Lemma lambda_handler_returns_success_witness :
  let event := event_of [sqs_record_of unregistered_message] in
  @lambda_handler lib table event tt cold = (Return success, gap_recorded) /\
  success = {[ "action_performed" := "true" ]} /\
  dom success = {[ "action_performed" ]}.
Proof.
  intros event.
  assert (@lambda_handler lib table event tt cold = (Return success, gap_recorded)) as Hrun
    by reflexivity.
  exact (conj Hrun
           (@lambda_handler_returns_success lib table event tt cold gap_recorded success Hrun)).
Defined.

End Runs.

(** * Further properties of the lambda *)

Section TurnFacts.
Context `{HmaLib}.
Variable DYNAMODB_TABLE : string.

(** A turn of the loop on a record whose body deserializes, in full: the
    message is logged, dispatched, and when the dispatch returns the
    clock is read and the row written. *)
Lemma process_record_turn (table : string) (r : gmap string string) (body : string)
    (m : ActionMessage.t ActionRule) (w : World) :
  r !! "body" = Some body ->
  ActionMessage_from_aws_json body = Return m ->
  process_record table r w =
    let '(o, x) := dispatch_run (hma_config w) m (external w) in
    let w1 := after_perform x (performed w ++ calls_for (hma_config w) m)
                (set_logged (logged w ++ [m]) w) in
    match o with
    | Raise e => (Raise e, w1)
    | Return _ =>
        ActionEvent_write_to_table (action_event_of m (wall_clock (clock_reads w))) table
          (set_clock_reads (S (clock_reads w)) w1)
    end.
Proof.
  intros Hbody Hm.
  rewrite process_record_unfold, Hbody, Hm, perform_label_action_unfold.
  unfold dispatch_run, calls_for. simpl.
  destruct (ActionPerformer_get (hma_config w)
              (ActionLabel.value (ActionMessage.action_label m))) as [p|].
  - destruct (ActionPerformer_perform_action p (ActionMessageObj m) (external w))
      as [[[]|e] x]; reflexivity.
  - rewrite app_nil_r. destruct w; reflexivity.
Qed.

(** A turn of the loop leaves the environment, the cache of the
    initialisation and the configuration alone. *)
Lemma process_record_frame (table : string) (r : gmap string string) (w : World) :
  let w1 := snd (process_record table r w) in
  environ w1 = environ w /\ init_cache w1 = init_cache w /\
  hma_config w1 = hma_config w /\ initialize_calls w1 = initialize_calls w.
Proof.
  destruct (r !! "body") as [body|] eqn:Hbody.
  2:{ rewrite process_record_unfold, Hbody. simpl. tauto. }
  destruct (ActionMessage_from_aws_json body) as [m|e] eqn:Hm.
  2:{ rewrite process_record_unfold, Hbody, Hm. simpl. tauto. }
  rewrite (process_record_turn table r body m w Hbody Hm).
  destruct (dispatch_run (hma_config w) m (external w)) as [[[]|e] x]; simpl; [|tauto].
  unfold ActionEvent_write_to_table.
  destruct (put_item_accepts _ _ _); simpl; tauto.
Qed.

Lemma for_each_frame (table : string) (records : list (gmap string string)) (w : World) :
  let w1 := snd (for_each (process_record table) records w) in
  environ w1 = environ w /\ init_cache w1 = init_cache w /\
  hma_config w1 = hma_config w /\ initialize_calls w1 = initialize_calls w.
Proof.
  revert w. induction records as [|r records IH]; intros w; [simpl; tauto|].
  simpl. unfold bind.
  pose proof (process_record_frame table r w) as Hr.
  destruct (process_record table r w) as [[u|e] w1]; simpl in Hr; [|exact Hr].
  specialize (IH w1). simpl in IH.
  destruct IH as (-> & -> & -> & ->). exact Hr.
Qed.

(** A turn of the loop that returns, in full. *)
Lemma process_record_returns_turn (table : string) (r : gmap string string)
    (w w1 : World) (u : unit) :
  process_record table r w = (Return u, w1) ->
  exists m,
    deserializes_to r m /\
    logged w1 = logged w ++ [m] /\
    clock_reads w1 = S (clock_reads w) /\
    table_rows table w1
      = table_rows table w ++ [action_event_of m (wall_clock (clock_reads w))] /\
    performed w1 = performed w ++ calls_for (hma_config w) m /\
    hma_config w1 = hma_config w.
Proof.
  intros Hturn.
  destruct (r !! "body") as [body|] eqn:Hbody.
  2:{ rewrite process_record_unfold, Hbody in Hturn. discriminate. }
  destruct (ActionMessage_from_aws_json body) as [m|e] eqn:Hm.
  2:{ rewrite process_record_unfold, Hbody, Hm in Hturn. discriminate. }
  rewrite (process_record_turn table r body m w Hbody Hm) in Hturn.
  destruct (dispatch_run (hma_config w) m (external w)) as [[[]|e] x]; [|discriminate].
  apply write_to_table_returns in Hturn. subst w1.
  exists m. split; [exists body; auto|].
  rewrite table_rows_written. simpl. repeat split; reflexivity.
Qed.

(** A loop that returns, in full: every record deserialized, every
    message logged and dispatched, the clock read once per record, and
    one row per record, in the order of the batch. *)
Lemma for_each_returns_batch (table : string) (records : list (gmap string string))
    (w w' : World) (u : unit) :
  for_each (process_record table) records w = (Return u, w') ->
  exists msgs,
    Forall2 deserializes_to records msgs /\
    logged w' = logged w ++ msgs /\
    clock_reads w' = clock_reads w + length records /\
    table_rows table w'
      = table_rows table w
        ++ imap (fun i m => action_event_of m (wall_clock (clock_reads w + i))) msgs /\
    performed w' = performed w ++ flat_map (calls_for (hma_config w)) msgs /\
    hma_config w' = hma_config w.
Proof.
  revert w. induction records as [|r records IH]; intros w Hloop.
  - simpl in Hloop. injection Hloop as _ <-. exists []. simpl.
    rewrite !app_nil_r. repeat split; auto; lia.
  - simpl in Hloop. unfold bind in Hloop.
    destruct (process_record table r w) as [[u1|e] w1] eqn:Hr; [|discriminate].
    apply process_record_returns_turn in Hr
      as (m & Hm & Hlog & Hclock & Hrows & Hcalls & Hconfig).
    apply IH in Hloop as (msgs & Hall & Hlog' & Hclock' & Hrows' & Hcalls' & Hconfig').
    exists (m :: msgs). split; [constructor; assumption|].
    split; [rewrite Hlog', Hlog, <- app_assoc; reflexivity|].
    split; [rewrite Hclock', Hclock; simpl; lia|].
    split; [|split].
    + rewrite Hrows', Hrows, <- app_assoc. simpl. rewrite Nat.add_0_r.
      f_equal. f_equal. apply imap_ext. intros i m' _. simpl.
      rewrite Hclock. do 2 f_equal. lia.
    + rewrite Hcalls', Hcalls, Hconfig, <- app_assoc. reflexivity.
    + rewrite Hconfig'. exact Hconfig.
Qed.

End TurnFacts.

Section HandlerFacts.
Context `{HmaLib}.
Variable DYNAMODB_TABLE : string.

(** A run of the handler that returns went through the initialisation,
    found the records and got through the loop. *)
Lemma lambda_handler_returns_inv
    (event : gmap string (list (gmap string string))) (context : unit)
    (w w' : World) (result : gmap string string) :
  lambda_handler DYNAMODB_TABLE event context w = (Return result, w') ->
  exists w0 records,
    lambda_init_once w = (Return tt, w0) /\
    event !! "Records" = Some records /\
    for_each (process_record DYNAMODB_TABLE) records w0 = (Return tt, w').
Proof.
  rewrite lambda_handler_unfold.
  destruct (lambda_init_once w) as [[[]|e] w0]; [|discriminate].
  destruct (event !! "Records") as [records|]; [|discriminate].
  destruct (for_each _ records w0) as [[[]|e] w1] eqn:Hloop; [|discriminate].
  intros [= _ <-]. exists w0, records. auto.
Qed.

(** The initialisation calls [HMAConfig.initialize] at most once. *)
Lemma lambda_init_once_calls (w : World) :
  initialize_calls (snd (lambda_init_once w)) <= S (initialize_calls w) /\
  (init_cache w = Some tt ->
   init_cache (snd (lambda_init_once w)) = Some tt /\
   hma_config (snd (lambda_init_once w)) = hma_config w /\
   initialize_calls (snd (lambda_init_once w)) = initialize_calls w).
Proof.
  rewrite lambda_init_once_unfold.
  destruct (init_cache w) as [[]|] eqn:Hc; simpl.
  - split; [lia|intros _; repeat split; auto].
  - split; [|discriminate].
    destruct (environ w !! "CONFIG_TABLE_NAME") as [t|]; simpl; [|lia].
    destruct (HMAConfig_initialize t (hma_config w)) as [[r|e] c]; simpl; lia.
Qed.

(** A turn of the loop writes to the table it is given and to no other. *)
Lemma process_record_other_tables (table name : string) (r : gmap string string)
    (w : World) :
  name <> table ->
  dynamodb (snd (process_record table r w)) !! name = dynamodb w !! name.
Proof.
  intros Hne.
  destruct (process_record table r w) as [[u|e] w1] eqn:Hr; simpl.
  - rewrite process_record_unfold in Hr.
    destruct (r !! "body") as [body|]; [|discriminate].
    destruct (ActionMessage_from_aws_json body) as [m|e]; [|discriminate].
    pose proof (perform_label_action_keeps (ActionMessageObj m) (ActionMessage.action_label m)
                  (set_logged (logged w ++ [m]) w)) as (Hdb & _ & _).
    destruct (perform_label_action _ _ _) as [[b|e] w2]; [|discriminate].
    simpl in Hdb. apply write_to_table_returns in Hr. subst w1. simpl.
    rewrite lookup_insert_ne by congruence. rewrite Hdb. reflexivity.
  - apply process_record_raises in Hr. rewrite Hr. reflexivity.
Qed.

Lemma for_each_other_tables (table name : string) (records : list (gmap string string))
    (w : World) :
  name <> table ->
  dynamodb (snd (for_each (process_record table) records w)) !! name = dynamodb w !! name.
Proof.
  intros Hne. revert w. induction records as [|r records IH]; intros w; [reflexivity|].
  simpl. unfold bind.
  pose proof (process_record_other_tables table name r w Hne) as Hr.
  destruct (process_record table r w) as [[u|e] w1]; simpl in Hr; [|exact Hr].
  rewrite IH. exact Hr.
Qed.

(** The calls a turn of the loop adds: none, or the one call of the
    dispatch of the message of its record. *)
Lemma process_record_calls (table : string) (r : gmap string string) (w : World) :
  exists calls,
    performed (snd (process_record table r w)) = performed w ++ calls /\
    (calls = [] \/ exists m, deserializes_to r m /\ calls = calls_for (hma_config w) m).
Proof.
  destruct (r !! "body") as [body|] eqn:Hbody.
  2:{ exists []. rewrite process_record_unfold, Hbody, app_nil_r. auto. }
  destruct (ActionMessage_from_aws_json body) as [m|e] eqn:Hm.
  2:{ exists []. rewrite process_record_unfold, Hbody, Hm, app_nil_r. auto. }
  exists (calls_for (hma_config w) m). split; [|right; exists m; split; [exists body|]; auto].
  rewrite (process_record_turn table r body m w Hbody Hm).
  destruct (dispatch_run (hma_config w) m (external w)) as [[[]|e] x]; [|reflexivity].
  unfold ActionEvent_write_to_table.
  destruct (put_item_accepts _ _ _); reflexivity.
Qed.

(** A call of [calls_for] hands the message itself to the performer its
    label resolves to. *)
Lemma calls_for_spec (config : Config) (m : ActionMessage.t ActionRule)
    (c : ActionPerformer * message ActionRule) :
  c ∈ calls_for config m ->
  c.2 = ActionMessageObj m /\
  ActionPerformer_get config (ActionLabel.value (ActionMessage.action_label m)) = Some c.1.
Proof.
  unfold calls_for.
  destruct (ActionPerformer_get config _) as [p|]; intros Hc.
  - apply list_elem_of_singleton in Hc. subst c. auto.
  - inversion Hc.
Qed.

Lemma calls_for_length (config : Config) (m : ActionMessage.t ActionRule) :
  length (calls_for config m) <= 1.
Proof. unfold calls_for. destruct (ActionPerformer_get config _); simpl; lia. Qed.

Lemma for_each_calls (table : string) (records : list (gmap string string)) (w : World) :
  exists calls,
    performed (snd (for_each (process_record table) records w)) = performed w ++ calls /\
    length calls <= length records /\
    Forall (fun c => exists r m,
              r ∈ records /\ deserializes_to r m /\ c.2 = ActionMessageObj m /\
              ActionPerformer_get (hma_config w)
                (ActionLabel.value (ActionMessage.action_label m)) = Some c.1) calls.
Proof.
  revert w. induction records as [|r records IH]; intros w.
  - exists []. simpl. rewrite app_nil_r. repeat split; auto.
  - simpl. unfold bind.
    destruct (process_record_calls table r w) as (calls1 & Hcalls1 & Hshape).
    pose proof (process_record_frame table r w) as (_ & _ & Hconfig & _).
    assert (length calls1 <= 1 /\
            Forall (fun c => exists r' m,
                      r' ∈ r :: records /\ deserializes_to r' m /\ c.2 = ActionMessageObj m /\
                      ActionPerformer_get (hma_config w)
                        (ActionLabel.value (ActionMessage.action_label m)) = Some c.1) calls1)
      as (Hlen1 & Hall1).
    { destruct Hshape as [->|(m & Hm & ->)]; [simpl; split; [lia|constructor]|].
      split; [apply calls_for_length|].
      apply Forall_forall. intros c Hc. apply calls_for_spec in Hc as (Hobj & Hget).
      exists r, m. repeat split; auto. apply list_elem_of_here. }
    destruct (process_record table r w) as [[u|e] w1]; simpl in Hcalls1, Hconfig.
    + destruct (IH w1) as (calls2 & Hcalls2 & Hlen2 & Hall2).
      exists (calls1 ++ calls2). split; [|split].
      * rewrite Hcalls2, Hcalls1, <- app_assoc. reflexivity.
      * rewrite length_app. simpl. lia.
      * apply Forall_app. split; [exact Hall1|].
        eapply Forall_impl; [exact Hall2|].
        intros c (r' & m & Hin & Hm & Hobj & Hget).
        exists r', m. rewrite <- Hconfig. repeat split; auto.
        apply list_elem_of_further. exact Hin.
    + exists calls1. simpl. repeat split; auto. lia.
Qed.

End HandlerFacts.

Section BatchFacts.
Context `{HmaLib}.
Variable DYNAMODB_TABLE : string.

(** X1. An event without the key [Records]: the initialisation has run
    by the time the key is looked up, so the handler raises
    [KeyError("Records")] in a process that is now initialised (or what
    the initialisation raised); no performer is called, nothing is logged
    and no table changes. *)
Theorem lambda_handler_missing_records
    (event : gmap string (list (gmap string string))) (context : unit) (w : World) :
  event !! "Records" = None ->
  let after := lambda_handler DYNAMODB_TABLE event context w in
  after = match lambda_init_once w with
          | (Return _, w0) => (Raise (KeyError "Records"), w0)
          | (Raise e, w0) => (Raise e, w0)
          end /\
  (forall e, fst after = Raise e ->
             e = KeyError "Records" /\ init_cache (snd after) = Some tt \/
             fst (lambda_init_once w) = Raise e) /\
  performed (snd after) = performed w /\
  logged (snd after) = logged w /\
  dynamodb (snd after) = dynamodb w.
Proof.
  intros Hrecords after. subst after.
  rewrite lambda_handler_unfold, Hrecords.
  pose proof (lambda_init_once_frame w) as (Hp & _ & Hdb & _ & Hlog & _).
  destruct (lambda_init_once w) as [[u|e] w0] eqn:Hinit; simpl in *.
  - repeat split; auto. intros e [= <-]. left. split; [reflexivity|].
    exact (lambda_init_once_fills _ _ _ Hinit).
  - repeat split; auto. intros e0 [= <-]. right. reflexivity.
Qed.

(** X2. A record the loop cannot read is rejected before anything is
    done with it: without a [body] the turn raises [KeyError("body")],
    with a body that does not deserialize it raises what the deserializer
    raised, and in both cases the process state is untouched (nothing
    logged, no performer called, no reading of the clock, no row). *)
Theorem process_record_rejects_untouched (r : gmap string string) (w : World) :
  (r !! "body" = None ->
   process_record DYNAMODB_TABLE r w = (Raise (KeyError "body"), w)) /\
  (forall body e,
     r !! "body" = Some body -> ActionMessage_from_aws_json body = Raise e ->
     process_record DYNAMODB_TABLE r w = (Raise e, w)).
Proof.
  split.
  - intros Hbody. rewrite process_record_unfold, Hbody. reflexivity.
  - intros body e Hbody Hm. rewrite process_record_unfold, Hbody, Hm. reflexivity.
Qed.

(** X3. A run of the handler that returns has processed the whole batch
    in order: every record deserialized; the messages were logged in the
    order of the records; the clock was read once per record; the records
    table gained one row per record, the i-th built from the i-th message
    and the i-th reading of the clock; and the performers called are, in
    order, those the labels of the messages resolve to, each handed its
    message. *)
Theorem lambda_handler_returns_batch
    (event : gmap string (list (gmap string string))) (context : unit)
    (w w' : World) (result : gmap string string) :
  lambda_handler DYNAMODB_TABLE event context w = (Return result, w') ->
  exists records msgs,
    event !! "Records" = Some records /\
    Forall2 deserializes_to records msgs /\
    logged w' = logged w ++ msgs /\
    clock_reads w' = clock_reads w + length records /\
    table_rows DYNAMODB_TABLE w'
      = table_rows DYNAMODB_TABLE w
        ++ imap (fun i m => action_event_of m (wall_clock (clock_reads w + i))) msgs /\
    performed w' = performed w ++ flat_map (calls_for (hma_config w')) msgs.
Proof.
  intros Hrun.
  apply lambda_handler_returns_inv in Hrun as (w0 & records & Hinit & Hrecords & Hloop).
  pose proof (lambda_init_once_frame w) as (Hp & _ & Hdb & Hclock & Hlog & _).
  rewrite Hinit in Hp, Hdb, Hclock, Hlog. simpl in Hp, Hdb, Hclock, Hlog.
  apply for_each_returns_batch in Hloop
    as (msgs & Hall & Hlog' & Hclock' & Hrows' & Hcalls' & Hconfig').
  exists records, msgs. split; [exact Hrecords|]. split; [exact Hall|].
  split; [rewrite Hlog', Hlog; reflexivity|].
  split; [rewrite Hclock', Hclock; reflexivity|].
  split.
  - rewrite Hrows', Hclock. unfold table_rows. rewrite Hdb. reflexivity.
  - rewrite Hcalls', Hp, Hconfig'. reflexivity.
Qed.

(** X4. An initialisation that raises is not remembered: the handler
    ends with the same exception before it looks at the event, nothing of
    the batch is touched, and the cache is still empty, so the next
    invocation in the process runs the initialisation again. *)
Theorem lambda_handler_failed_init_not_cached
    (event : gmap string (list (gmap string string))) (context : unit)
    (e : exn) (w w1 : World) :
  lambda_init_once w = (Raise e, w1) ->
  lambda_handler DYNAMODB_TABLE event context w = (Raise e, w1) /\
  init_cache w1 = None /\
  performed w1 = performed w /\ logged w1 = logged w /\ dynamodb w1 = dynamodb w /\
  lambda_init_once w1
    = match lambda_init_once_body w1 with
      | (Return r, w2) => (Return r, set_init_cache (Some r) w2)
      | (Raise e', w2) => (Raise e', w2)
      end.
Proof.
  intros Hinit.
  assert (init_cache w1 = None) as Hcache.
  { rewrite lambda_init_once_unfold in Hinit.
    destruct (init_cache w) as [r|] eqn:Hc; [discriminate|].
    destruct (environ w !! "CONFIG_TABLE_NAME") as [t|].
    - destruct (HMAConfig_initialize t (hma_config w)) as [[r|e'] c]; [discriminate|].
      injection Hinit as _ <-. exact Hc.
    - injection Hinit as _ <-. exact Hc. }
  pose proof (lambda_init_once_frame w) as (Hp & _ & Hdb & _ & Hlog & _).
  rewrite Hinit in Hp, Hdb, Hlog. simpl in Hp, Hdb, Hlog.
  split; [rewrite lambda_handler_unfold, Hinit; reflexivity|].
  repeat split; auto.
  unfold lambda_init_once. rewrite Hcache. reflexivity.
Qed.

(** X5. Whatever the event and however the run ends, the handler leaves
    [os.environ] as it was and calls [HMAConfig.initialize] at most once;
    in a process already initialised it does not call it at all, and the
    configuration and the cache stay as they were. *)
Theorem lambda_handler_initializes_at_most_once
    (event : gmap string (list (gmap string string))) (context : unit) (w : World) :
  let w' := snd (lambda_handler DYNAMODB_TABLE event context w) in
  environ w' = environ w /\
  initialize_calls w' <= S (initialize_calls w) /\
  (init_cache w = Some tt ->
   init_cache w' = Some tt /\ hma_config w' = hma_config w /\
   initialize_calls w' = initialize_calls w).
Proof.
  simpl. rewrite lambda_handler_unfold.
  pose proof (lambda_init_once_frame w) as (_ & _ & _ & _ & _ & Henv).
  pose proof (lambda_init_once_calls w) as (Hle & Hwarm).
  destruct (lambda_init_once w) as [[u|e] w0]; simpl in *; [|auto].
  destruct (event !! "Records") as [records|]; simpl; [|auto].
  pose proof (for_each_frame DYNAMODB_TABLE records w0) as (Henv' & Hcache' & Hconfig' & Hcalls').
  destruct (for_each (process_record DYNAMODB_TABLE) records w0) as [[u'|e] w1];
    simpl in *; rewrite Henv', Hcache', Hconfig', Hcalls'; auto.
Qed.

(** X6. What dispatch returns tells what happened: [True] only after the
    performer the label resolves to was called once and returned, [False]
    only when the label resolves to no performer, in which case the
    process state is untouched. A [False] never hides a performer that
    failed. *)
Theorem perform_label_action_result
    (o : message ActionRule) (l : ActionLabel.t) (found : bool) (w w' : World) :
  perform_label_action o l w = (Return found, w') ->
  if found
  then exists p,
         ActionPerformer_get (hma_config w) (ActionLabel.value l) = Some p /\
         ActionPerformer_perform_action p o (external w) = (Return tt, external w') /\
         performed w' = performed w ++ [(p, o)]
  else ActionPerformer_get (hma_config w) (ActionLabel.value l) = None /\ w' = w.
Proof.
  rewrite perform_label_action_unfold.
  destruct (ActionPerformer_get (hma_config w) (ActionLabel.value l)) as [p|].
  - destruct (ActionPerformer_perform_action p o (external w)) as [[[]|e] x] eqn:Hrun;
      [|discriminate].
    intros [= <- <-]. exists p. simpl. auto.
  - intros [= <- <-]. auto.
Qed.

(** X7. A turn of the loop whose performer raises: the message was
    logged before the dispatch and the call is noted, the exception is
    the outcome of the turn, and the steps after the dispatch did not
    run: the clock was not read and no table changed. *)
Theorem process_record_performer_raises
    (r : gmap string string) (body : string) (m : ActionMessage.t ActionRule)
    (p : ActionPerformer) (e : exn) (x : External) (w : World) :
  r !! "body" = Some body ->
  ActionMessage_from_aws_json body = Return m ->
  ActionPerformer_get (hma_config w) (ActionLabel.value (ActionMessage.action_label m))
    = Some p ->
  ActionPerformer_perform_action p (ActionMessageObj m) (external w) = (Raise e, x) ->
  let after := process_record DYNAMODB_TABLE r w in
  fst after = Raise e /\
  logged (snd after) = logged w ++ [m] /\
  performed (snd after) = performed w ++ [(p, ActionMessageObj m)] /\
  external (snd after) = x /\
  clock_reads (snd after) = clock_reads w /\
  dynamodb (snd after) = dynamodb w.
Proof.
  intros Hbody Hm Hget Hrun after. subst after.
  rewrite (process_record_turn DYNAMODB_TABLE r body m w Hbody Hm).
  unfold dispatch_run, calls_for. rewrite Hget, Hrun. simpl.
  repeat split; reflexivity.
Qed.


(** X9. The handler writes to the table named by [DYNAMODB_TABLE] and
    to no other: whatever the event and however the run ends, every other
    table of the store is as it was. *)
Theorem lambda_handler_writes_only_records_table
    (event : gmap string (list (gmap string string))) (context : unit)
    (name : string) (w : World) :
  name <> DYNAMODB_TABLE ->
  dynamodb (snd (lambda_handler DYNAMODB_TABLE event context w)) !! name
    = dynamodb w !! name.
Proof.
  intros Hne. rewrite lambda_handler_unfold.
  pose proof (lambda_init_once_frame w) as (_ & _ & Hdb & _).
  destruct (lambda_init_once w) as [[u|e] w0]; simpl in *; [|rewrite Hdb; reflexivity].
  destruct (event !! "Records") as [records|]; simpl; [|rewrite Hdb; reflexivity].
  pose proof (for_each_other_tables DYNAMODB_TABLE name records w0 Hne) as Hloop.
  destruct (for_each (process_record DYNAMODB_TABLE) records w0) as [[u'|e] w1];
    simpl in *; rewrite Hloop, Hdb; reflexivity.
Qed.

(** X10. However the run ends, the handler calls at most one performer
    per record of the batch, and every call hands a message deserialized
    from a record of the batch, the object itself, to the performer the
    label of that message resolves to. *)
Theorem lambda_handler_calls_from_batch
    (event : gmap string (list (gmap string string))) (context : unit) (w : World) :
  let w' := snd (lambda_handler DYNAMODB_TABLE event context w) in
  let records := default [] (event !! "Records") in
  exists calls,
    performed w' = performed w ++ calls /\
    length calls <= length records /\
    Forall (fun c => exists r m,
              r ∈ records /\ deserializes_to r m /\ c.2 = ActionMessageObj m /\
              ActionPerformer_get (hma_config w')
                (ActionLabel.value (ActionMessage.action_label m)) = Some c.1) calls.
Proof.
  simpl. rewrite lambda_handler_unfold.
  pose proof (lambda_init_once_frame w) as (Hp & _).
  destruct (lambda_init_once w) as [[u|e] w0]; simpl in *.
  2:{ exists []. rewrite app_nil_r. split; [auto|split; [simpl; lia|constructor]]. }
  destruct (event !! "Records") as [records|]; simpl.
  2:{ exists []. rewrite app_nil_r. split; [auto|split; [simpl; lia|constructor]]. }
  destruct (for_each_calls DYNAMODB_TABLE records w0) as (calls & Hcalls & Hlen & Hall).
  pose proof (for_each_frame DYNAMODB_TABLE records w0) as (_ & _ & Hconfig & _).
  exists calls.
  destruct (for_each (process_record DYNAMODB_TABLE) records w0) as [[u'|e] w1];
    simpl in *; rewrite Hconfig, Hcalls, Hp; repeat split; auto.
Qed.

End BatchFacts.

(** * The further properties at work on the deployment [Demo] *)

Section MoreRuns.
Import Demo DemoRuns.

Lemma lambda_handler_missing_records_witness :
  (∅ : gmap string (list (gmap string string))) !! "Records" = None /\
  @lambda_handler lib table ∅ tt cold = (Raise (KeyError "Records"), warm) /\
  init_cache (snd (@lambda_handler lib table ∅ tt cold)) = Some tt.
Proof.
  assert ((∅ : gmap string (list (gmap string string))) !! "Records" = None) as Hrecords
    by reflexivity.
  destruct (@lambda_handler_missing_records lib table ∅ tt cold Hrecords)
    as (Hrun & Hwhy & _).
  destruct (Hwhy (KeyError "Records") (f_equal fst Hrun)) as [(_ & Hcache)|Hinit].
  - exact (conj Hrecords (conj Hrun Hcache)).
  - discriminate Hinit.
Defined.

Lemma process_record_rejects_untouched_witness :
  (∅ : gmap string string) !! "body" = None /\
  @process_record lib table ∅ warm = (Raise (KeyError "body"), warm) /\
  malformed_record !! "body" = Some "not an action message" /\
  from_aws_json "not an action message"
    = Raise (DeserializationError "not an action message") /\
  @process_record lib table malformed_record warm
    = (Raise (DeserializationError "not an action message"), warm).
Proof.
  assert ((∅ : gmap string string) !! "body" = None) as Hnone by reflexivity.
  assert (malformed_record !! "body" = Some "not an action message") as Hbody
    by reflexivity.
  assert (from_aws_json "not an action message"
          = Raise (DeserializationError "not an action message")) as Hm by reflexivity.
  exact (conj Hnone
          (conj (proj1 (@process_record_rejects_untouched lib table ∅ warm) Hnone)
            (conj Hbody (conj Hm
              (proj2 (@process_record_rejects_untouched lib table malformed_record warm)
                 "not an action message" _ Hbody Hm))))).
Defined.

Lemma lambda_handler_returns_batch_witness :
  let event := event_of [sqs_record_of review_message; sqs_record_of unregistered_message] in
  @lambda_handler lib table event tt cold = (Return success, two_recorded) /\
  exists records msgs,
    event !! "Records" = Some records /\
    Forall2 (@deserializes_to lib) records msgs /\
    logged two_recorded = logged cold ++ msgs /\
    clock_reads two_recorded = clock_reads cold + length records /\
    table_rows table two_recorded
      = table_rows table cold
        ++ imap (fun i m => @action_event_of lib m (@wall_clock lib (clock_reads cold + i))) msgs /\
    performed two_recorded
      = performed cold ++ flat_map (@calls_for lib (hma_config two_recorded)) msgs.
Proof.
  intros event.
  assert (@lambda_handler lib table event tt cold = (Return success, two_recorded)) as Hrun
    by reflexivity.
  exact (conj Hrun
           (@lambda_handler_returns_batch lib table event tt cold two_recorded success Hrun)).
Defined.

Lemma lambda_handler_failed_init_not_cached_witness :
  @lambda_init_once lib unconfigured = (Raise (KeyError "CONFIG_TABLE_NAME"), unconfigured) /\
  @lambda_handler lib table batch_of_three tt unconfigured
    = (Raise (KeyError "CONFIG_TABLE_NAME"), unconfigured) /\
  init_cache unconfigured = None.
Proof.
  assert (@lambda_init_once lib unconfigured
          = (Raise (KeyError "CONFIG_TABLE_NAME"), unconfigured)) as Hinit by reflexivity.
  destruct (@lambda_handler_failed_init_not_cached lib table batch_of_three tt
              (KeyError "CONFIG_TABLE_NAME") unconfigured unconfigured Hinit)
    as (Hrun & Hcache & _).
  exact (conj Hinit (conj Hrun Hcache)).
Defined.

Lemma lambda_handler_initializes_at_most_once_witness :
  init_cache warm = Some tt /\
  init_cache (snd (@lambda_handler lib table batch_of_three tt warm)) = Some tt /\
  hma_config (snd (@lambda_handler lib table batch_of_three tt warm)) = Some "hma-config" /\
  initialize_calls (snd (@lambda_handler lib table batch_of_three tt warm)) = 1 /\
  initialize_calls (snd (@lambda_handler lib table batch_of_three tt cold)) <= 1.
Proof.
  destruct (@lambda_handler_initializes_at_most_once lib table batch_of_three tt warm)
    as (_ & _ & Hwarm).
  destruct (Hwarm eq_refl) as (Hcache & Hconfig & Hcalls).
  destruct (@lambda_handler_initializes_at_most_once lib table batch_of_three tt cold)
    as (_ & Hle & _).
  exact (conj eq_refl (conj Hcache (conj Hconfig (conj Hcalls Hle)))).
Defined.

Lemma perform_label_action_result_witness :
  @perform_label_action lib (ActionMessageObj review_message)
    (ActionLabel.new "EnqueForReview") warm
    = (Return true,
       @after_perform lib ["review key"] [(EnqueueForReview, ActionMessageObj review_message)] warm) /\
  (exists p, get (Some "hma-config") "EnqueForReview" = Some p /\
             perform_action p (ActionMessageObj review_message) [] = (Return tt, ["review key"]) /\
             [(EnqueueForReview, ActionMessageObj review_message)]
               = [] ++ [(p, ActionMessageObj review_message)]) /\
  @perform_label_action lib (ActionMessageObj unregistered_message)
    (ActionLabel.new "Unregistered") warm = (Return false, warm) /\
  get (Some "hma-config") "Unregistered" = None.
Proof.
  assert (@perform_label_action lib (ActionMessageObj review_message)
            (ActionLabel.new "EnqueForReview") warm
          = (Return true,
             @after_perform lib ["review key"]
               [(EnqueueForReview, ActionMessageObj review_message)] warm)) as Hfound
    by reflexivity.
  assert (@perform_label_action lib (ActionMessageObj unregistered_message)
            (ActionLabel.new "Unregistered") warm = (Return false, warm)) as Hgap
    by reflexivity.
  exact (conj Hfound
          (conj (@perform_label_action_result lib _ _ true warm _ Hfound)
            (conj Hgap
              (proj1 (@perform_label_action_result lib _ _ false warm _ Hgap))))).
Defined.

Lemma process_record_performer_raises_witness :
  let r := sqs_record_of broken_message in
  r !! "body" = Some (to_aws_json broken_message) /\
  from_aws_json (to_aws_json broken_message) = Return broken_message /\
  get (Some "hma-config") "Broken" = Some Broken /\
  perform_action Broken (ActionMessageObj broken_message) []
    = (Raise (HandlerExecutionError "endpoint unreachable"), []) /\
  fst (@process_record lib table r warm) = Raise (HandlerExecutionError "endpoint unreachable") /\
  logged (snd (@process_record lib table r warm)) = [broken_message] /\
  performed (snd (@process_record lib table r warm))
    = [(Broken, ActionMessageObj broken_message)] /\
  clock_reads (snd (@process_record lib table r warm)) = 0 /\
  dynamodb (snd (@process_record lib table r warm)) = ∅.
Proof.
  intros r.
  assert (r !! "body" = Some (to_aws_json broken_message)) as Hbody by reflexivity.
  assert (from_aws_json (to_aws_json broken_message) = Return broken_message) as Hm
    by reflexivity.
  assert (get (Some "hma-config") "Broken" = Some Broken) as Hget by reflexivity.
  assert (perform_action Broken (ActionMessageObj broken_message) []
          = (Raise (HandlerExecutionError "endpoint unreachable"), [])) as Hrun
    by reflexivity.
  destruct (@process_record_performer_raises lib table r (to_aws_json broken_message)
              broken_message Broken (HandlerExecutionError "endpoint unreachable") [] warm
              Hbody Hm Hget Hrun)
    as (Hout & Hlog & Hcalls & _ & Hclock & Hdb).
  exact (conj Hbody (conj Hm (conj Hget (conj Hrun
           (conj Hout (conj Hlog (conj Hcalls (conj Hclock Hdb)))))))).
Defined.


Lemma lambda_handler_writes_only_records_table_witness :
  "other-table" <> table /\
  dynamodb (snd (@lambda_handler lib table batch_of_three tt with_other_table))
    !! "other-table" = Some [review_row].
Proof.
  assert ("other-table" <> table) as Hne by discriminate.
  exact (conj Hne
           (@lambda_handler_writes_only_records_table lib table batch_of_three tt
              "other-table" with_other_table Hne)).
Defined.

End MoreRuns.
